(** * graph_bind.cc: the Python bridge of graph-tool

    A shallow embedding of [src/graph/graph_bind.cc]: the converters
    between Python values and [std::vector], [std::pair] and
    [GraphInterface::deg_t], the vector comparison operators, the
    exception translator and the pickler hooks.

    Python values are a small inductive type; a C++ function that may
    throw returns a [result]; the converter registry of Boost.Python is a
    chain of converters that is searched front to back. *)

From Stdlib Require Import ZArith Ascii String List Lia.
From stdpp Require Import base option list strings gmap pretty.

Local Open Scope string_scope.
Local Open Scope nat_scope.
Local Open Scope list_scope.
Set Warnings "-register-all".

(** ** The host: Python values and errors *)

(** The Python exception categories the bridge can leave pending. *)
Inductive PyExc : Type :=
  | PyExc_TypeError
  | PyExc_IndexError
  | PyExc_OverflowError
  | PyExc_RuntimeError
  | PyExc_IOError
  | PyExc_ValueError.

Global Instance PyExc_eq_dec : EqDecision PyExc.
Proof. solve_decision. Defined.

(** The failure of a from-python conversion: Boost.Python raises a
    [TypeError] when no registered converter accepts the value. *)
Definition TypeConversion : PyExc := PyExc_TypeError.

(** Python values. [PyInstance cls h] is an instance of an extension class
    that is not a sequence (for example [any], or the enumeration
    [Degree]), holding the native object [h]. The instances of the vector
    classes this file exports answer [len] and indexing; they are not
    among the values of this type. *)
Inductive PyObject : Type :=
  | PyNone
  | PyBool (b : bool)
  | PyInt (z : Z)
  | PyStr (s : string)
  | PyList (items : list PyObject)
  | PyTuple (items : list PyObject)
  | PyInstance (cls : string) (h : Z).

(** A C++ computation that returns normally or leaves with a pending
    Python error ([error_already_set]). *)
Inductive result (A : Type) : Type :=
  | Ok (a : A)
  | Raise (e : PyExc).
Global Arguments Ok {A} a.
Global Arguments Raise {A} e.

Global Instance result_ret : MRet result := λ A a, Ok a.
Global Instance result_bind : MBind result := λ A B f m,
  match m with
  | Ok a => f a
  | Raise e => Raise e
  end.
Global Instance result_fmap : FMap result := λ A B f m,
  match m with
  | Ok a => Ok (f a)
  | Raise e => Raise e
  end.

(** [len(o)]: defined on the built-in sequences; a [TypeError] on a value
    without a length. *)
Definition len (o : PyObject) : result nat :=
  match o with
  | PyList items | PyTuple items => Ok (length items)
  | PyStr s => Ok (String.length s)
  | _ => Raise PyExc_TypeError
  end.

(** [o[i]]: the item at position [i]; an [IndexError] past the end of a
    sequence, a [TypeError] on a value that cannot be indexed. *)
Definition getitem (o : PyObject) (i : nat) : result PyObject :=
  match o with
  | PyList items | PyTuple items =>
      match items !! i with
      | Some x => Ok x
      | None => Raise PyExc_IndexError
      end
  | PyStr s =>
      match String.get i s with
      | Some c => Ok (PyStr (String c EmptyString))
      | None => Raise PyExc_IndexError
      end
  | _ => Raise PyExc_TypeError
  end.

(** The items of a host sequence, in order; [None] when the value is not a
    sequence. *)
Fixpoint string_items (s : string) : list PyObject :=
  match s with
  | EmptyString => []
  | String c s' => PyStr (String c EmptyString) :: string_items s'
  end.

Definition sequence_items (o : PyObject) : option (list PyObject) :=
  match o with
  | PyList items | PyTuple items => Some items
  | PyStr s => Some (string_items s)
  | _ => None
  end.

(** ** Element converters: [extract<T>] and [to_python] *)

(** [extract<T> e(o)]: [check o] is [e.check()], [extract o] is the
    conversion [T(e)], which throws when the value cannot be converted. *)
Class Extract (T : Type) := {
  check : PyObject → bool;
  extract : PyObject → result T
}.

(** The to-python conversion of a value of type [T]. *)
Class ToPython (T : Type) := {
  to_python : T → PyObject
}.

(** [operator!=] of an element type. *)
Class NotEqual (T : Type) := {
  ne : T → T → bool
}.

(** ** The converter registry *)

(** One entry of the rvalue from-python chain of a target type [R]. The
    C++ [convertible] returns a null pointer or the object; here a
    boolean. *)
Record rvalue_from_python_chain (R : Type) := {
  rv_convertible : PyObject → result bool;
  rv_construct : PyObject → result R
}.
Global Arguments rv_convertible {R} _ _.
Global Arguments rv_construct {R} _ _.

(** [converter::registry::push_back]: the new entry goes to the end of the
    chain of its target type. *)
Definition push_back {R : Type} (c : rvalue_from_python_chain R)
    (chain : list (rvalue_from_python_chain R)) :
    list (rvalue_from_python_chain R) :=
  chain ++ [c].

(** Modelled from the spec: the conversion of a host value through the
    chain of a target type, which is Boost.Python's and not part of
    graph_bind.cc. The entries are probed in chain order, the first whose
    [convertible] accepts the value constructs the result, and the
    conversion fails with TypeConversion when none accepts it. *)
Fixpoint rvalue_from_python {R : Type}
    (chain : list (rvalue_from_python_chain R)) (obj : PyObject) : result R :=
  match chain with
  | [] => Raise TypeConversion
  | c :: rest =>
      ok ← rv_convertible c obj;
      if ok : bool then rv_construct c obj else rvalue_from_python rest obj
  end.

(** ** [vector_from_list] *)

Module vector_from_list.
Section vector_from_list.
Context {ValueType : Type} `{Extract ValueType}.

(** The loop of [convertible]: [n] iterations remain, [i] is the index. *)
Fixpoint convertible_loop (o : PyObject) (n i : nat) : result bool :=
  match n with
  | O => Ok true
  | S n' =>
      x ← getitem o i;
      if negb (check x) then Ok false else convertible_loop o n' (S i)
  end.

Definition convertible (obj_ptr : PyObject) : result bool :=
  N ← len obj_ptr;
  convertible_loop obj_ptr N 0.

(** The loop of [construct]: [value.push_back(extract<ValueType>(o[i]))]. *)
Fixpoint construct_loop (o : PyObject) (n i : nat)
    (value : list ValueType) : result (list ValueType) :=
  match n with
  | O => Ok value
  | S n' =>
      x ← getitem o i;
      v ← extract x;
      construct_loop o n' (S i) (value ++ [v])
  end.

Definition construct (obj_ptr : PyObject) : result (list ValueType) :=
  N ← len obj_ptr;
  construct_loop obj_ptr N 0 [].

(** The constructor registers the two functions for [vector<ValueType>]. *)
Definition register (chain : list (rvalue_from_python_chain (list ValueType))) :
    list (rvalue_from_python_chain (list ValueType)) :=
  push_back {| rv_convertible := convertible; rv_construct := construct |}
            chain.
End vector_from_list.
End vector_from_list.

(** The host-to-native direction of the sequence adapter: a host value is
    converted through the chain that [vector_from_list<ValueType>()] set
    up. *)
Definition fromHost {ValueType : Type} `{Extract ValueType}
    (value : PyObject) : result (list ValueType) :=
  rvalue_from_python (vector_from_list.register []) value.

(** Modelled from the spec: the native-to-host direction of the sequence
    adapter. The class is exported with [vector_indexing_suite], which is
    Boost.Python's and not part of graph_bind.cc: the host sequence has
    the current contents of the native one, each element converted by
    [to_python]. It is given by its items. *)
Definition toHost {ValueType : Type} `{ToPython ValueType}
    (seq : list ValueType) : list PyObject :=
  map to_python seq.

(** ** Vector comparison *)

Section vector_compare.
Context {ValueType : Type} `{NotEqual ValueType}.

(** The loop of [vector_equal_compare]; [None] is an access past the end
    of one of the vectors. *)
Fixpoint equal_loop (v1 v2 : list ValueType) (n i : nat) : option bool :=
  match n with
  | O => Some true
  | S n' =>
      match v1 !! i, v2 !! i with
      | Some a, Some b =>
          if ne a b then Some false else equal_loop v1 v2 n' (S i)
      | _, _ => None
      end
  end.

Definition vector_equal_compare (v1 v2 : list ValueType) : option bool :=
  if negb (Nat.eqb (length v1) (length v2)) then Some false
  else equal_loop v1 v2 (length v1) 0.

Definition vector_nequal_compare (v1 v2 : list ValueType) : option bool :=
  negb <$> vector_equal_compare v1 v2.
End vector_compare.

(** ** Exception translation *)

(** The types the translator template can be instantiated with: the three
    exception classes of graph-tool, and any other type. *)
Inductive ExceptionType : Type :=
  | GraphException
  | IOException
  | ValueException
  | OtherException (name : string).

Global Instance ExceptionType_eq_dec : EqDecision ExceptionType.
Proof. solve_decision. Defined.

(** [is_same<A, B>::value] *)
Definition is_same (A B : ExceptionType) : bool := bool_decide (A = B).

(** A thrown exception: its dynamic type and the message it holds;
    [what()] points to the characters of the message. *)
Record Exception := {
  dynamic_type : ExceptionType;
  what : string
}.

(** The part of the interpreter the translator writes: the attribute
    dictionaries of the exception category objects, and the error
    indicator (category and text of the pending error). *)
Record PyState := {
  type_attrs : PyExc → gmap string PyObject;
  err_indicator : option (PyExc * string)
}.

(** What a C function reads from a [const char*]: the characters before
    the first NUL. *)
Fixpoint c_str (s : string) : string :=
  match s with
  | EmptyString => EmptyString
  | String c s' =>
      if Ascii.eqb c "000"%char then EmptyString else String c (c_str s')
  end.

(** Whether a string has no NUL in it. *)
Fixpoint nul_free (s : string) : bool :=
  match s with
  | EmptyString => true
  | String c s' => negb (Ascii.eqb c "000"%char) && nul_free s'
  end.

Definition PyString_FromString (s : string) : PyObject := PyStr (c_str s).

(** The name of an exception category, as error texts show it. *)
Definition tp_name (t : PyExc) : string :=
  match t with
  | PyExc_TypeError => "exceptions.TypeError"
  | PyExc_IndexError => "exceptions.IndexError"
  | PyExc_OverflowError => "exceptions.OverflowError"
  | PyExc_RuntimeError => "exceptions.RuntimeError"
  | PyExc_IOError => "exceptions.IOError"
  | PyExc_ValueError => "exceptions.ValueError"
  end.

(** [PyObject_SetAttrString(o, attr_name, v)] on an exception category.
    The categories are built-in types, and the interpreter refuses to set
    an attribute of a built-in type: nothing is stored, a [TypeError] is
    left pending and the call returns -1. *)
Definition PyObject_SetAttrString (o : PyExc) (attr_name : string)
    (v : PyObject) (st : PyState) : Z * PyState :=
  ((-1)%Z,
   {| type_attrs := type_attrs st;
      err_indicator :=
        Some (PyExc_TypeError,
              "can't set attributes of built-in/extension type '"
              +:+ tp_name o +:+ "'") |}).

(** [PyErr_SetString(type, message)]: the pending error becomes one of
    category [type] with the text of the C string [message]. *)
Definition PyErr_SetString (type : PyExc) (message : string)
    (st : PyState) : PyState :=
  {| type_attrs := type_attrs st;
     err_indicator := Some (type, c_str message) |}.

(** [graph_exception_translator<Exception>(e)]. The local [error] starts
    indeterminate ([None]); the result is [None] when it is read in that
    state. What [PyObject_SetAttrString] returns is not looked at. *)
Definition graph_exception_translator (Exception_ : ExceptionType)
    (e : Exception) (st : PyState) : option PyState :=
  let error : option PyExc := None in
  let error := if is_same Exception_ GraphException
               then Some PyExc_RuntimeError else error in
  let error := if is_same Exception_ IOException
               then Some PyExc_IOError else error in
  let error := if is_same Exception_ ValueException
               then Some PyExc_ValueError else error in
  let message := PyString_FromString (what e) in
  error ← error;
  let '(_, st) := PyObject_SetAttrString error "message" message st in
  Some (PyErr_SetString error (what e) st).

(** [raise_error(msg)] throws a [GraphException] with that message. *)
Definition raise_error (msg : string) : Exception :=
  {| dynamic_type := GraphException; what := msg |}.

(** The pending error as the host sees it: category and display text. *)
Record HostError := {
  category : PyExc;
  display_text : string
}.

Definition pending_error (st : PyState) : option HostError :=
  match err_indicator st with
  | Some (t, text) =>
      Some {| category := t; display_text := text |}
  | None => None
  end.

(** The class hierarchy declared in graph.hh: [IOException] and
    [ValueException] derive from [GraphException]. *)
Definition derived_from (D B : ExceptionType) : bool :=
  is_same D B
  || (is_same B GraphException
      && (is_same D IOException || is_same D ValueException)).

(** [register_exception_translator<E>(graph_exception_translator<E>)]:
    the handlers are kept in the order of registration. *)
Definition register_exception_translator (E : ExceptionType)
    (handlers : list ExceptionType) : list ExceptionType :=
  handlers ++ [E].

(** An exception thrown by a wrapped function crosses the handlers of
    Boost.Python: every handler runs the following ones inside
    [try { ... } catch (E const& e) { translate(e); }], so the handler
    registered last sees the exception first. [None]: no handler caught
    it. *)
Fixpoint handle_exception (handlers : list ExceptionType) (e : Exception)
    (st : PyState) : option (option PyState) :=
  match handlers with
  | [] => None
  | E :: rest =>
      match handle_exception rest e st with
      | Some translated => Some translated
      | None =>
          if derived_from (dynamic_type e) E
          then Some (graph_exception_translator E e st)
          else None
      end
  end.

(** The three registrations of the module initialiser. *)
Definition module_exception_translators : list ExceptionType :=
  register_exception_translator ValueException
    (register_exception_translator IOException
       (register_exception_translator GraphException [])).

(** Whether the translator is instantiated with one of the three
    exception classes of graph-tool. *)
Definition registered_kind (E : ExceptionType) : bool :=
  match E with
  | GraphException | IOException | ValueException => true
  | OtherException _ => false
  end.

(** ** Pairs *)

Module pair_to_tuple.
Definition convert {T1 T2 : Type} `{ToPython T1, ToPython T2}
    (p : T1 * T2) : PyObject :=
  PyTuple [to_python (fst p); to_python (snd p)].
End pair_to_tuple.

Module pair_from_tuple.
Section pair_from_tuple.
Context {T1 T2 : Type} `{Extract T1, Extract T2}.

Definition convertible (obj_ptr : PyObject) : result bool :=
  first ← getitem obj_ptr 0;
  second ← getitem obj_ptr 1;
  if negb (check (T:=T1) first) || negb (check (T:=T2) second)
  then Ok false
  else Ok true.

Definition construct (obj_ptr : PyObject) : result (T1 * T2) :=
  x0 ← getitem obj_ptr 0;
  value_first ← extract x0;
  x1 ← getitem obj_ptr 1;
  value_second ← extract x1;
  Ok (value_first, value_second).

Definition register (chain : list (rvalue_from_python_chain (T1 * T2))) :
    list (rvalue_from_python_chain (T1 * T2)) :=
  push_back {| rv_convertible := convertible; rv_construct := construct |}
            chain.
End pair_from_tuple.
End pair_from_tuple.

(** The host-to-native direction of the pair adapter. *)
Definition pair_fromHost {T1 T2 : Type} `{Extract T1, Extract T2}
    (value : PyObject) : result (T1 * T2) :=
  rvalue_from_python (pair_from_tuple.register []) value.

(** ** The tagged union [GraphInterface::deg_t] *)

Inductive degree_t : Type := IN_DEGREE | OUT_DEGREE | TOTAL_DEGREE.

(** [boost::any]: an opaque holder, told apart by a handle. *)
Inductive any : Type := any_holder (h : Z).

(** [boost::variant<degree_t, boost::any>], declared in graph.hh. *)
Inductive deg_t : Type :=
  | deg_degree (d : degree_t)
  | deg_any (a : any).

(** [GraphInterface::deg_t deg = value]: a value of an alternative type
    becomes the variant holding that alternative. *)
Class DegAlternative (T : Type) := {
  to_deg : T → deg_t
}.
Global Instance degree_t_alternative : DegAlternative degree_t :=
  {| to_deg := deg_degree |}.
Global Instance any_alternative : DegAlternative any :=
  {| to_deg := deg_any |}.

Module variant_from_python.
Section variant_from_python.
Context {ValueType : Type} `{Extract ValueType, DegAlternative ValueType}.

Definition convertible (obj_ptr : PyObject) : result bool :=
  if negb (check (T:=ValueType) obj_ptr) then Ok false else Ok true.

Definition construct (obj_ptr : PyObject) : result deg_t :=
  value ← extract (T:=ValueType) obj_ptr;
  let deg := to_deg value in
  Ok deg.

Definition register (chain : list (rvalue_from_python_chain deg_t)) :
    list (rvalue_from_python_chain deg_t) :=
  push_back {| rv_convertible := convertible; rv_construct := construct |}
            chain.
End variant_from_python.
End variant_from_python.

(** An alternative of the union together with its converters: one
    instantiation of the template [variant_from_python]. *)
Record alternative := {
  alt_type : Type;
  alt_extract : Extract alt_type;
  alt_deg : DegAlternative alt_type
}.

(** The chain after registering the alternatives in the order of the
    list. *)
Definition register_alternatives (alts : list alternative) :
    list (rvalue_from_python_chain deg_t) :=
  fold_left
    (λ chain a,
       @variant_from_python.register (alt_type a) (alt_extract a) (alt_deg a)
                                     chain)
    alts [].

(** Whether the check of an alternative accepts a value, and what its
    [construct] makes of the value. *)
Definition alternative_accepts (obj : PyObject) (a : alternative) : bool :=
  @check (alt_type a) (alt_extract a) obj.

Definition alternative_construct (a : alternative) (obj : PyObject) :
    result deg_t :=
  @variant_from_python.construct (alt_type a) (alt_extract a) (alt_deg a) obj.

(** The registrations of the module initialiser:
    [variant_from_python<boost::any>()], then
    [variant_from_python<GraphInterface::degree_t>()]. *)
Definition module_deg_t_chain `{Extract any, Extract degree_t} :
    list (rvalue_from_python_chain deg_t) :=
  variant_from_python.register (ValueType:=degree_t)
    (variant_from_python.register (ValueType:=any) []).

(** The conversion of the same value [n] times in a row. *)
Definition convert_repeatedly {R : Type}
    (chain : list (rvalue_from_python_chain R)) (obj : PyObject) (n : nat) :
    list (result R) :=
  map (rvalue_from_python chain) (replicate n obj).

(** ** Persistent python object IO: the pickler hooks *)

(** The process-wide state of the bridge: the two slots
    [graph_tool::object_pickler] and [graph_tool::object_unpickler], the
    registered exception translators, the converter chain of [deg_t], and
    the interpreter state. *)
Record BridgeState := {
  object_pickler : PyObject;
  object_unpickler : PyObject;
  exception_translators : list ExceptionType;
  deg_t_converters : list (rvalue_from_python_chain deg_t);
  interpreter : PyState
}.

Definition set_pickler (o : PyObject) (st : BridgeState) : BridgeState :=
  {| object_pickler := o;
     object_unpickler := object_unpickler st;
     exception_translators := exception_translators st;
     deg_t_converters := deg_t_converters st;
     interpreter := interpreter st |}.

Definition set_unpickler (o : PyObject) (st : BridgeState) : BridgeState :=
  {| object_pickler := object_pickler st;
     object_unpickler := o;
     exception_translators := exception_translators st;
     deg_t_converters := deg_t_converters st;
     interpreter := interpreter st |}.

(** ** Exported vector classes and the array view *)

(** A class exposed to Python: its name and the methods defined on it. *)
Record class_ := {
  class_name : string;
  methods : list string
}.

Definition def (name : string) (c : class_) : class_ :=
  {| class_name := class_name c; methods := methods c ++ [name] |}.

(** The methods [vector_indexing_suite] defines on a class. *)
Definition vector_indexing_suite (c : class_) : class_ :=
  {| class_name := class_name c;
     methods := methods c ++
       ["__len__"; "__setitem__"; "__delitem__"; "__getitem__";
        "__contains__"; "__iter__"; "append"; "extend"] |}.

Module export_vector_types.
(** [wrap_array(vc, has_key)]: the overload for [mpl::true_] defines
    [get_array], the one for [mpl::false_] does nothing. *)
Definition wrap_array (vc : class_) (has_key : bool) : class_ :=
  if has_key then def "get_array" vc else vc.

(** [operator()(ValueType)]: [type_name] is what [get_type_name] gives
    for the element type, [has_key] whether [numpy_types] has it. The
    result is the class and the converter chain of [vector<ValueType>]. *)
Definition call {ValueType : Type} `{Extract ValueType}
    (type_name : string) (has_key : bool) :
    class_ * list (rvalue_from_python_chain (list ValueType)) :=
  let type_name :=
    if String.eqb type_name "long double" then "long_double"
    else type_name in
  let name := "Vector_" +:+ type_name in
  let vc := {| class_name := name; methods := [] |} in
  let vc := def "__ne__" (def "__eq__" (vector_indexing_suite vc)) in
  let vc := wrap_array vc has_key in
  (vc, vector_from_list.register []).
End export_vector_types.

Section array_view.
Context {ValueType : Type}.

(** Native memory: the backing storage of each vector, by its address. *)
Definition memory : Type := gmap positive (list ValueType).

(** A numpy array over native storage: where its data is, how many
    elements it has, and whether it owns the data. *)
Record ndarray := {
  data : positive;
  dim : nat;
  owns_data : bool
}.

(** Modelled from the spec: [wrap_vector_not_owned], which is defined in
    numpy_bind.hh and not in graph_bind.cc. It returns a non-owning view
    directly over the backing storage of the vector, with the current
    length of the vector; nothing is copied and memory is unchanged. *)
Definition wrap_vector_not_owned (vec : positive)
    (mem : gmap positive (list ValueType)) : option ndarray :=
  v ← mem !! vec;
  Some {| data := vec; dim := length v; owns_data := false |}.

(** Modelled from the spec: a write of one element through the buffer
    view; it lands in the storage the view points to. *)
Definition ndarray_setitem (a : ndarray) (i : nat) (x : ValueType)
    (mem : gmap positive (list ValueType)) :
    option (gmap positive (list ValueType)) :=
  v ← mem !! data a;
  if decide (i < dim a) then Some (<[data a := <[i := x]> v]> mem)
  else None.

(** Modelled from the spec: the index get of the sequence adapter on the
    native vector at address [vec]. *)
Definition vector_getitem (vec : positive) (i : nat)
    (mem : gmap positive (list ValueType)) : option ValueType :=
  v ← mem !! vec;
  v !! i.
End array_view.
Global Arguments ndarray : clear implicits.

(** ** Converters of some element types *)

(** Text: a Python string converts to [std::string] and back. *)
Global Instance string_extract : Extract string := {|
  check := λ o, match o with PyStr _ => true | _ => false end;
  extract := λ o, match o with PyStr s => Ok s | _ => Raise PyExc_TypeError end
|}.
Global Instance string_to_python : ToPython string := {|
  to_python := PyStr
|}.
Global Instance string_ne : NotEqual string := {|
  ne := λ a b, negb (String.eqb a b)
|}.

(** An instance of the wrapped class [any] holds a [boost::any]. *)
Global Instance any_extract : Extract any := {|
  check := λ o, match o with
                | PyInstance cls _ => String.eqb cls "any"
                | _ => false
                end;
  extract := λ o, match o with
                  | PyInstance cls h =>
                      if String.eqb cls "any" then Ok (any_holder h)
                      else Raise PyExc_TypeError
                  | _ => Raise PyExc_TypeError
                  end
|}.

(** The values of the enumeration [Degree]: [In], [Out] and [Total]. *)
Global Instance degree_t_extract : Extract degree_t := {|
  check := λ o, match o with
                | PyInstance cls h =>
                    String.eqb cls "Degree" && bool_decide (0 ≤ h ≤ 2)%Z
                | _ => false
                end;
  extract := λ o, match o with
                  | PyInstance cls h =>
                      if String.eqb cls "Degree" then
                        match h with
                        | 0%Z => Ok IN_DEGREE
                        | 1%Z => Ok OUT_DEGREE
                        | 2%Z => Ok TOTAL_DEGREE
                        | _ => Raise PyExc_TypeError
                        end
                      else Raise PyExc_TypeError
                  | _ => Raise PyExc_TypeError
                  end
|}.

(** A holder of [boost::any] that accepts every Python value: with it a
    [Degree] value is convertible to both alternatives of [deg_t]. *)
Definition any_extract_all : Extract any := {|
  check := λ _, true;
  extract := λ o, match o with
                  | PyInstance _ h => Ok (any_holder h)
                  | _ => Ok (any_holder 0)
                  end
|}.

(** A 32-bit integer element, after the built-in converter of
    Boost.Python: every Python integer passes the check, and extracting
    one outside the 32-bit range raises [OverflowError]. *)
Definition int32_extract : Extract Z := {|
  check := λ o, match o with PyInt _ | PyBool _ => true | _ => false end;
  extract := λ o,
    match o with
    | PyInt z =>
        if bool_decide (-2147483648 ≤ z ≤ 2147483647)%Z then Ok z
        else Raise PyExc_OverflowError
    | PyBool b => Ok (if b then 1%Z else 0%Z)
    | _ => Raise PyExc_TypeError
    end
|}.

Definition int32_to_python : ToPython Z := {|
  to_python := PyInt
|}.

(** ** [get_property_types] *)

(** The loop of [get_property_types]: [plist.append(string(type_names[i]))].
    [type_names] is the table of names declared in graph_properties.hh;
    [None] is a read past its end. *)
Fixpoint get_property_types_loop (type_names : list string) (n i : nat)
    (plist : list PyObject) : option (list PyObject) :=
  match n with
  | O => Some plist
  | S n' =>
      name ← type_names !! i;
      get_property_types_loop type_names n' (S i) (plist ++ [PyStr name])
  end.

(** [get_property_types()]: [size] is [mpl::size<value_types>::value]. *)
Definition get_property_types (size : nat) (type_names : list string) :
    option PyObject :=
  plist ← get_property_types_loop type_names size 0 [];
  Some (PyList plist).

(** ** [LibInfo] *)

Module LibInfo.
(** [GetGCCVersion()]: the three numbers [__GNUC__], [__GNUC_MINOR__] and
    [__GNUC_PATCHLEVEL__] of the compiler, written in decimal with a dot
    between them. *)
Definition GetGCCVersion (gnuc gnuc_minor gnuc_patchlevel : N) : string :=
  pretty gnuc +:+ "." +:+ pretty gnuc_minor +:+ "." +:+ pretty gnuc_patchlevel.

(** [GetVersion()]: the literals [VERSION], [GIT_COMMIT] and
    [GIT_COMMIT_DATE] of the build, concatenated. *)
Definition GetVersion (VERSION GIT_COMMIT GIT_COMMIT_DATE : string) : string :=
  VERSION +:+ " (commit " +:+ GIT_COMMIT +:+ ", " +:+ GIT_COMMIT_DATE +:+ ")".

Definition GetLicense : string := "GPL version 3 or above".

Definition GetCXXFLAGS (CPPFLAGS CXXFLAGS LDFLAGS : string) : string :=
  CPPFLAGS +:+ " " +:+ CXXFLAGS +:+ " " +:+ LDFLAGS.
End LibInfo.

(** Whether a string has no dot in it. *)
Fixpoint no_dot (s : string) : bool :=
  match s with
  | EmptyString => true
  | String c s' => negb (Ascii.eqb c "."%char) && no_dot s'
  end.

(** * Properties *)

(** ** Vector comparison *)

Section vector_compare_facts.
Context {ValueType : Type} `{NotEqual ValueType}.

(** Inside both vectors the loop never reads past the end, and it
    answers [true] exactly when no position it visits holds two unequal
    elements. *)
Lemma equal_loop_spec (v1 v2 : list ValueType) n i :
  i + n ≤ length v1 → i + n ≤ length v2 →
  ∃ r, equal_loop v1 v2 n i = Some r ∧
       (r = true ↔
        ∀ j x y, i ≤ j < i + n →
                 v1 !! j = Some x → v2 !! j = Some y → ne x y = false).
Proof.
  revert i. induction n as [|n IH]; intros i H1 H2; simpl.
  - exists true. split; [done|]. split; [|done]. intros _ j x y ?. lia.
  - destruct (lookup_lt_is_Some_2 v1 i) as [a Ha]; [lia|].
    destruct (lookup_lt_is_Some_2 v2 i) as [b Hb]; [lia|].
    rewrite Ha, Hb. destruct (ne a b) eqn:Hne.
    + exists false. split; [done|]. split; [done|].
      intros Hall. specialize (Hall i a b). rewrite Hall in Hne; [done|lia|done..].
    + destruct (IH (S i)) as (r & Hr & Hiff); [lia..|].
      exists r. split; [done|]. rewrite Hiff. split.
      * intros Hall j x y Hj Hx Hy.
        destruct (decide (j = i)) as [->|]; [congruence|].
        apply (Hall j); [lia|done..].
      * intros Hall j x y Hj. apply Hall. lia.
Qed.

Lemma vector_equal_compare_returns (v1 v2 : list ValueType) :
  ∃ r, vector_equal_compare v1 v2 = Some r.
Proof.
  unfold vector_equal_compare.
  destruct (Nat.eqb_spec (length v1) (length v2)) as [Heq|Hneq]; simpl.
  - destruct (equal_loop_spec v1 v2 (length v1) 0) as (r & Hr & _); [lia..|].
    by exists r.
  - by exists false.
Qed.
End vector_compare_facts.

(** C7: [vector_equal_compare] always returns, and it returns [true]
    exactly when the two vectors have the same length and at every
    position their elements are equal, that is, [!=] is false on them. *)
Theorem vector_equal_compare_spec {ValueType : Type} `{NotEqual ValueType}
    (a b : list ValueType) :
  ∃ r, vector_equal_compare a b = Some r ∧
       (r = true ↔
        length a = length b ∧
        ∀ i x y, a !! i = Some x → b !! i = Some y → ne x y = false).
Proof.
  unfold vector_equal_compare.
  destruct (Nat.eqb_spec (length a) (length b)) as [Heq|Hneq]; simpl.
  - destruct (equal_loop_spec a b (length a) 0) as (r & Hr & Hiff); [lia..|].
    exists r. split; [done|]. rewrite Hiff. split.
    + intros Hall. split; [done|]. intros i x y Hx Hy.
      apply (Hall i); [|done..]. apply lookup_lt_Some in Hx. lia.
    + intros [_ Hall] j x y _. apply Hall.
  - exists false. split; [done|]. split; [done|]. intros [? _]. done.
Qed.

(** X9: when [!=] is false exactly on identical elements, the comparison
    answers whether the two vectors are the same. *)
Lemma vector_equal_compare_eq {ValueType : Type} `{NotEqual ValueType}
    (a b : list ValueType) :
  (∀ x y : ValueType, ne x y = false ↔ x = y) →
  vector_equal_compare a b = Some true ↔ a = b.
Proof.
  intros Hne. unfold vector_equal_compare.
  destruct (Nat.eqb_spec (length a) (length b)) as [Heq|Hneq]; simpl.
  - destruct (equal_loop_spec a b (length a) 0) as (r & -> & Hiff); [lia..|].
    split.
    + intros [= ->]. apply list_eq_same_length with (length a); [done..|].
      intros i x y Hi Hx Hy. apply Hne.
      apply (proj1 Hiff eq_refl i); [lia|done..].
    + intros ->. f_equal. apply Hiff. intros j x y _ Hx Hy.
      apply Hne. congruence.
  - split; [done|]. by intros ->.
Qed.

(** C8: [vector_nequal_compare] always returns, and its answer is the
    negation of the answer of [vector_equal_compare]. *)
Theorem vector_nequal_compare_negates {ValueType : Type} `{NotEqual ValueType}
    (a b : list ValueType) :
  ∃ r, vector_equal_compare a b = Some r ∧
       vector_nequal_compare a b = Some (negb r).
Proof.
  destruct (vector_equal_compare_returns a b) as [r Hr].
  exists r. split; [done|]. unfold vector_nequal_compare. by rewrite Hr.
Qed.

Example vector_equal_compare_same :
  vector_equal_compare ["a"; "b"] ["a"; "b"] = Some true.
Proof. reflexivity. Qed.

Example vector_equal_compare_differ :
  vector_equal_compare ["a"; "b"] ["a"; "c"] = Some false
  ∧ vector_nequal_compare ["a"; "b"] ["a"; "c"] = Some true
  ∧ vector_equal_compare ["a"] ["a"; "c"] = Some false.
Proof. repeat split. Qed.

(** ** Host sequences *)

Lemma string_items_length (s : string) :
  length (string_items s) = String.length s.
Proof. induction s as [|c s IH]; simpl; [done|]. by rewrite IH. Qed.

Lemma string_items_lookup (s : string) (i : nat) :
  string_items s !! i =
  (λ c, PyStr (String c EmptyString)) <$> String.get i s.
Proof.
  revert i. induction s as [|c s IH]; intros i; simpl; [done|].
  destruct i as [|i]; simpl; [done|]. apply IH.
Qed.

(** On a host sequence [len] is the number of items. *)
Lemma len_sequence (o : PyObject) (items : list PyObject) :
  sequence_items o = Some items → len o = Ok (length items).
Proof.
  destruct o; simpl; intros Hs; try done; inversion Hs; subst; try done.
  by rewrite string_items_length.
Qed.

(** On a host sequence indexing gives the item, or an [IndexError] past
    the end. *)
Lemma getitem_sequence (o : PyObject) (items : list PyObject) (i : nat) :
  sequence_items o = Some items →
  getitem o i = match items !! i with
                | Some x => Ok x
                | None => Raise PyExc_IndexError
                end.
Proof.
  destruct o; simpl; intros Hs; try done; inversion Hs; subst; try done.
  rewrite string_items_lookup. by destruct (String.get i s).
Qed.

(** ** The registry *)

(** A chain with one entry: the entry decides. *)
Lemma rvalue_from_python_single {R : Type} (c : rvalue_from_python_chain R)
    (obj : PyObject) :
  rvalue_from_python (push_back c []) obj =
  match rv_convertible c obj with
  | Ok true => rv_construct c obj
  | Ok false => Raise TypeConversion
  | Raise e => Raise e
  end.
Proof.
  simpl. destruct (rv_convertible c obj) as [[|]|e]; reflexivity.
Qed.

(** ** [vector_from_list] *)

Section vector_from_list_facts.
Context {ValueType : Type} `{Extract ValueType}.

(** The loop of [convertible] answers whether the [n] items from
    position [i] on all pass the check. *)
Lemma convertible_loop_spec (o : PyObject) (items : list PyObject) n i :
  sequence_items o = Some items →
  i + n ≤ length items →
  vector_from_list.convertible_loop o n i =
  Ok (forallb check (take n (drop i items))).
Proof.
  intros Hs. revert i. induction n as [|n IH]; intros i Hlen; simpl; [done|].
  rewrite (getitem_sequence o items i Hs).
  destruct (lookup_lt_is_Some_2 items i) as [x Hx]; [lia|].
  rewrite Hx. simpl. rewrite (drop_S _ _ _ Hx). simpl.
  destruct (check x); simpl; [|done]. apply IH. lia.
Qed.

Lemma convertible_spec (o : PyObject) (items : list PyObject) :
  sequence_items o = Some items →
  vector_from_list.convertible o = Ok (forallb check items).
Proof.
  intros Hs. unfold vector_from_list.convertible.
  rewrite (len_sequence o items Hs). simpl.
  rewrite (convertible_loop_spec o items _ 0 Hs); [|lia].
  by rewrite drop_0, firstn_all.
Qed.

(** The loop of [construct] appends the extracted items in order. *)
Lemma construct_loop_spec (o : PyObject) (items : list PyObject) n i
    (value vs : list ValueType) :
  sequence_items o = Some items →
  Forall2 (λ x v, extract x = Ok v) (take n (drop i items)) vs →
  i + n ≤ length items →
  vector_from_list.construct_loop o n i value = Ok (value ++ vs).
Proof.
  intros Hs. revert i value vs.
  induction n as [|n IH]; intros i value vs Hall Hlen; simpl.
  - simpl in Hall. apply Forall2_nil_inv_l in Hall as ->.
    by rewrite app_nil_r.
  - rewrite (getitem_sequence o items i Hs).
    destruct (lookup_lt_is_Some_2 items i) as [x Hx]; [lia|].
    rewrite Hx. simpl. rewrite (drop_S _ _ _ Hx) in Hall. simpl in Hall.
    apply Forall2_cons_inv_l in Hall as (v & vs' & Hv & Hall & ->).
    rewrite Hv. simpl. rewrite (IH (S i) (value ++ [v]) vs' Hall); [|lia].
    by rewrite <- app_assoc.
Qed.

Lemma construct_spec (o : PyObject) (items : list PyObject)
    (vs : list ValueType) :
  sequence_items o = Some items →
  Forall2 (λ x v, extract x = Ok v) items vs →
  vector_from_list.construct o = Ok vs.
Proof.
  intros Hs Hall. unfold vector_from_list.construct.
  rewrite (len_sequence o items Hs). simpl.
  rewrite (construct_loop_spec o items _ 0 [] vs Hs); [done| |lia].
  by rewrite drop_0, firstn_all.
Qed.

(** [fromHost] on a host sequence: a [TypeConversion] failure unless
    every item passes the check, and then whatever [construct] gives. *)
Lemma fromHost_sequence (o : PyObject) (items : list PyObject) :
  sequence_items o = Some items →
  fromHost (ValueType:=ValueType) o =
  if forallb check items then vector_from_list.construct o
  else Raise TypeConversion.
Proof.
  intros Hs. unfold fromHost, vector_from_list.register.
  rewrite rvalue_from_python_single. simpl.
  rewrite (convertible_spec o items Hs). by destruct (forallb check items).
Qed.

Lemma forallb_lookup (items : list PyObject) :
  forallb check items = true ↔
  ∀ i x, items !! i = Some x → check x = true.
Proof.
  rewrite forallb_forall. split.
  - intros Hall i x Hx. apply Hall, list_elem_of_In.
    by apply list_elem_of_lookup_2 in Hx.
  - intros Hall x Hin. apply list_elem_of_In, list_elem_of_lookup_1 in Hin as [i Hi].
    by apply (Hall i).
Qed.
End vector_from_list_facts.

(** Items that are all extracted give a vector of their extractions. *)
Lemma extracted_items {ValueType : Type} `{Extract ValueType}
    (items : list PyObject) :
  (∀ i x, items !! i = Some x → ∃ e : ValueType, extract x = Ok e) →
  ∃ vs : list ValueType, Forall2 (λ x v, extract x = Ok v) items vs.
Proof.
  induction items as [|x items IH]; intros Hall.
  - exists []. constructor.
  - destruct (Hall 0 x eq_refl) as [v Hv].
    destruct IH as [vs Hvs].
    { intros i y Hy. apply (Hall (S i) y Hy). }
    exists (v :: vs). by constructor.
Qed.

(** C1, as amended: for every element type and every host sequence whose
    items all pass the element check and are all extracted without error,
    [fromHost] returns a native vector, and [toHost] of that vector has
    the length of the sequence and holds at each position the to-python
    image of the value extracted from the item at that position. It is
    therefore equal to the sequence item by item, for any notion of equal
    host values under which an item converted to the element type and
    back is equal to the item; and it has exactly the items of the
    sequence when every item converts back to itself. *)
Theorem vector_round_trip {ValueType : Type}
    `{Extract ValueType, ToPython ValueType}
    (S : PyObject) (items : list PyObject) :
  sequence_items S = Some items →
  (∀ i x, items !! i = Some x →
          check (T:=ValueType) x = true
          ∧ ∃ e : ValueType, extract x = Ok e) →
  ∃ v : list ValueType,
    fromHost S = Ok v
    ∧ length (toHost v) = length items
    ∧ (∀ i x, items !! i = Some x →
              ∃ e, extract x = Ok e ∧ v !! i = Some e
                   ∧ toHost v !! i = Some (to_python e))
    ∧ (∀ R : PyObject → PyObject → Prop,
         (∀ i x e, items !! i = Some x → extract x = Ok e →
                   R (to_python e) x) →
         Forall2 R (toHost v) items)
    ∧ ((∀ i x (e : ValueType), items !! i = Some x → extract x = Ok e →
                               to_python e = x) →
       toHost v = items).
Proof.
  intros Hs Hall.
  destruct (extracted_items items) as [vs Hvs].
  { intros i x Hx. by destruct (Hall i x Hx). }
  exists vs. rewrite (fromHost_sequence S items Hs).
  rewrite (proj2 (forallb_lookup items)).
  2:{ intros i x Hx. by destruct (Hall i x Hx). }
  rewrite (construct_spec S items vs Hs Hvs).
  assert (∀ i x, items !! i = Some x →
                 ∃ e, extract x = Ok e ∧ vs !! i = Some e
                      ∧ toHost vs !! i = Some (to_python e)) as Hpos.
  { intros i x Hx.
    destruct (Forall2_lookup_l _ _ _ _ _ Hvs Hx) as (e & He & Hex).
    exists e. split; [done|]. split; [done|].
    unfold toHost. by rewrite list_lookup_fmap, He. }
  assert (length (toHost vs) = length items) as Hlen.
  { unfold toHost. rewrite length_map. symmetry. by eapply Forall2_length. }
  assert (∀ R : PyObject → PyObject → Prop,
            (∀ i x e, items !! i = Some x → extract x = Ok e →
                      R (to_python e) x) →
            Forall2 R (toHost vs) items) as Hrel.
  { intros R HR. apply Forall2_same_length_lookup_2; [done|].
    intros i y x Hy Hx. destruct (Hpos i x Hx) as (e & Hex & _ & Hi).
    rewrite Hi in Hy. inversion Hy; subst. by apply (HR i). }
  split; [done|]. split; [done|]. split; [done|]. split; [done|].
  intros Hback. apply list_eq_Forall2. apply Hrel.
  intros i x e Hx He. by apply (Hback i).
Qed.

Lemma vector_round_trip_witness :
  ∃ v : list Z,
    @fromHost Z int32_extract (PyList [PyBool true; PyInt 7]) = Ok v
    ∧ length (@toHost Z int32_to_python v) = length [PyBool true; PyInt 7]
    ∧ (∀ i x, [PyBool true; PyInt 7] !! i = Some x →
              ∃ e, @extract Z int32_extract x = Ok e ∧ v !! i = Some e
                   ∧ @toHost Z int32_to_python v !! i
                     = Some (@to_python Z int32_to_python e))
    ∧ (∀ R : PyObject → PyObject → Prop,
         (∀ i x e, [PyBool true; PyInt 7] !! i = Some x →
                   @extract Z int32_extract x = Ok e →
                   R (@to_python Z int32_to_python e) x) →
         Forall2 R (@toHost Z int32_to_python v) [PyBool true; PyInt 7])
    ∧ ((∀ i x (e : Z), [PyBool true; PyInt 7] !! i = Some x →
                       @extract Z int32_extract x = Ok e →
                       @to_python Z int32_to_python e = x) →
       @toHost Z int32_to_python v = [PyBool true; PyInt 7]).
Proof.
  apply (@vector_round_trip Z int32_extract int32_to_python
           (PyList [PyBool true; PyInt 7]) [PyBool true; PyInt 7]).
  - reflexivity.
  - intros [|[|i]] x Hx; simpl in Hx; inversion Hx; subst;
      (split; [reflexivity|by eexists]).
Defined.

(** C1, as the specification states it, fails: every item of the list
    [[4294967296]] passes the check of a 32-bit integer element, yet the
    extraction overflows and [fromHost] returns no vector to convert
    back. *)
Lemma vector_round_trip_counterexample :
  sequence_items (PyList [PyInt 4294967296]) = Some [PyInt 4294967296]
  ∧ (∀ i x, [PyInt 4294967296] !! i = Some x →
            @check Z int32_extract x = true)
  ∧ @vector_from_list.convertible Z int32_extract (PyList [PyInt 4294967296])
    = Ok true
  ∧ @fromHost Z int32_extract (PyList [PyInt 4294967296])
    = Raise PyExc_OverflowError
  ∧ (∀ v, @fromHost Z int32_extract (PyList [PyInt 4294967296]) ≠ Ok v).
Proof.
  split; [reflexivity|]. split.
  - intros [|i] x Hx; simpl in Hx; inversion Hx; reflexivity.
  - split; [reflexivity|]. split; [reflexivity|]. intros v Hv. inversion Hv.
Qed.

Example fromHost_tuple :
  fromHost (PyTuple [PyStr "a"; PyStr "b"; PyStr "c"]) = Ok ["a"; "b"; "c"]
  ∧ fromHost (ValueType:=string) (PyStr "ab") = Ok ["a"; "b"]
  ∧ fromHost (ValueType:=string) (PyList []) = Ok [].
Proof. repeat split. Qed.

(** C5: on a host sequence, [convertible] accepts exactly when every item
    passes the element check; and when some item does not pass it,
    [fromHost] fails with TypeConversion and returns no vector. *)
Theorem fromHost_all_or_nothing {ValueType : Type} `{Extract ValueType}
    (S : PyObject) (items : list PyObject) :
  sequence_items S = Some items →
  (vector_from_list.convertible S = Ok true ↔
   ∀ i x, items !! i = Some x → check x = true)
  ∧ (∀ i x, items !! i = Some x → check x = false →
       vector_from_list.convertible S = Ok false
       ∧ fromHost (ValueType:=ValueType) S = Raise TypeConversion
       ∧ ∀ v, fromHost (ValueType:=ValueType) S ≠ Ok v).
Proof.
  intros Hs. rewrite (convertible_spec S items Hs). split.
  - rewrite <- forallb_lookup. split; [by intros [= ->]|by intros ->].
  - intros i x Hx Hc.
    assert (forallb check items = false) as Hf.
    { destruct (forallb check items) eqn:Hb; [|done].
      rewrite forallb_lookup in Hb. rewrite (Hb i x Hx) in Hc. done. }
    rewrite (fromHost_sequence S items Hs), Hf. done.
Qed.

Lemma fromHost_all_or_nothing_witness :
  vector_from_list.convertible (ValueType:=string)
    (PyList [PyStr "x"; PyInt 1]) = Ok false
  ∧ fromHost (ValueType:=string) (PyList [PyStr "x"; PyInt 1])
    = Raise TypeConversion
  ∧ ∀ v, fromHost (ValueType:=string) (PyList [PyStr "x"; PyInt 1]) ≠ Ok v.
Proof.
  apply (proj2 (fromHost_all_or_nothing (ValueType:=string)
                  (PyList [PyStr "x"; PyInt 1]) [PyStr "x"; PyInt 1]
                  eq_refl) 1 (PyInt 1)); reflexivity.
Defined.

(** ** The exception translator *)

(** A string without NUL is all of its own C string. *)
Lemma c_str_nul_free (s : string) : nul_free s = true → c_str s = s.
Proof.
  induction s as [|c s IH]; simpl; [done|].
  destruct (Ascii.eqb c "000"%char); simpl; [done|].
  intros Hs. by rewrite IH.
Qed.

(** What the translator leaves behind when the category is [c]: the
    refused attribute write changes no dictionary, and the error it left
    pending is replaced. *)
Lemma translated_state (c : PyExc) (msg : string) (st : PyState) :
  PyErr_SetString c msg
    (PyObject_SetAttrString c "message" (PyString_FromString msg) st).2
  = {| type_attrs := type_attrs st; err_indicator := Some (c, c_str msg) |}.
Proof. reflexivity. Qed.

(** The translator instantiated with a graph-tool exception class. *)
Lemma translator_GraphException (e : Exception) (st : PyState) :
  graph_exception_translator GraphException e st =
  Some {| type_attrs := type_attrs st;
          err_indicator := Some (PyExc_RuntimeError, c_str (what e)) |}.
Proof. reflexivity. Qed.

Lemma translator_IOException (e : Exception) (st : PyState) :
  graph_exception_translator IOException e st =
  Some {| type_attrs := type_attrs st;
          err_indicator := Some (PyExc_IOError, c_str (what e)) |}.
Proof. reflexivity. Qed.

Lemma translator_ValueException (e : Exception) (st : PyState) :
  graph_exception_translator ValueException e st =
  Some {| type_attrs := type_attrs st;
          err_indicator := Some (PyExc_ValueError, c_str (what e)) |}.
Proof. reflexivity. Qed.

(** With the handlers of the module, a thrown exception of one of the
    three classes reaches the translator instantiated with its own
    class. *)
Lemma handle_exception_own_class (e : Exception) (st : PyState) :
  registered_kind (dynamic_type e) = true →
  handle_exception module_exception_translators e st =
  Some (graph_exception_translator (dynamic_type e) e st).
Proof.
  destruct e as [[| | |name] msg]; simpl; intros Hk; try done.
Qed.




Example raise_error_translated (st : PyState) :
  ∃ st',
    handle_exception module_exception_translators (raise_error "boom") st
    = Some (Some st')
    ∧ pending_error st' =
      Some {| category := PyExc_RuntimeError; display_text := "boom" |}.
Proof. eexists. split; reflexivity. Qed.

(** C4: the translator reads its local [error] after an assignment exactly
    when it is instantiated with [GraphException], [IOException] or
    [ValueException]; instantiated with any other type it reads [error]
    while it is still indeterminate. Every translator the module registers
    is one of the three. *)
Theorem translator_category_assigned (E : ExceptionType) (e : Exception)
    (st : PyState) :
  (registered_kind E = true ↔ is_Some (graph_exception_translator E e st))
  ∧ (registered_kind E = false ↔ graph_exception_translator E e st = None)
  ∧ Forall (λ E', registered_kind E' = true) module_exception_translators.
Proof.
  split; [|split].
  - destruct E; simpl; split; intros Hk; try done; try by eexists.
    by destruct Hk.
  - destruct E; simpl; split; intros Hk; done.
  - repeat constructor.
Qed.

Example translator_other_type (e : Exception) (st : PyState) :
  graph_exception_translator (OtherException "std::bad_alloc") e st = None.
Proof. reflexivity. Qed.

(** ** The tagged union *)

(** The converter [variant_from_python] registers for an alternative. *)
Lemma register_alternatives_snoc (alts : list alternative) (a : alternative) :
  register_alternatives (alts ++ [a]) =
  @variant_from_python.register (alt_type a) (alt_extract a) (alt_deg a)
    (register_alternatives alts).
Proof. unfold register_alternatives. by rewrite fold_left_app. Qed.

(** Probing a chain extended at its end: the older entries come first. *)
Lemma rvalue_from_python_app {R : Type}
    (chain1 chain2 : list (rvalue_from_python_chain R)) (obj : PyObject) :
  (∀ c, c ∈ chain1 → rv_convertible c obj = Ok false) →
  rvalue_from_python (chain1 ++ chain2) obj = rvalue_from_python chain2 obj.
Proof.
  induction chain1 as [|c chain1 IH]; intros Hno; simpl; [done|].
  rewrite (Hno c) by constructor. simpl. apply IH.
  intros c' Hc'. apply Hno. by constructor.
Qed.

Lemma rvalue_from_python_accept {R : Type}
    (c : rvalue_from_python_chain R)
    (rest : list (rvalue_from_python_chain R)) (obj : PyObject) :
  rv_convertible c obj = Ok true →
  rvalue_from_python (c :: rest) obj = rv_construct c obj.
Proof. intros Hc. simpl. by rewrite Hc. Qed.

(** The chain of the registered alternatives, entry by entry. *)
Lemma register_alternatives_split (pre post : list alternative)
    (a : alternative) :
  ∃ chain_pre chain_post,
    register_alternatives (pre ++ a :: post) =
    chain_pre ++
      {| rv_convertible := @variant_from_python.convertible
                             (alt_type a) (alt_extract a);
         rv_construct := alternative_construct a |} :: chain_post
    ∧ register_alternatives pre = chain_pre.
Proof.
  induction post as [|b post IH] using rev_ind.
  - exists (register_alternatives pre), [].
    split; [|done]. by rewrite register_alternatives_snoc.
  - destruct IH as (cp & cq & Heq & Hpre).
    eexists cp, (cq ++ [_]). split; [|done].
    replace (pre ++ a :: post ++ [b]) with ((pre ++ a :: post) ++ [b])
      by (by rewrite <- app_assoc).
    rewrite register_alternatives_snoc, Heq.
    unfold variant_from_python.register, push_back.
    by rewrite <- app_assoc.
Qed.

(** Every entry registered for a list of alternatives none of which
    accepts the value answers "not convertible". *)
Lemma register_alternatives_reject (alts : list alternative) (obj : PyObject) :
  (∀ i a, alts !! i = Some a → alternative_accepts obj a = false) →
  ∀ c, c ∈ register_alternatives alts → rv_convertible c obj = Ok false.
Proof.
  induction alts as [|a alts IH] using rev_ind; intros Hno c Hc.
  - by apply elem_of_nil in Hc.
  - rewrite register_alternatives_snoc in Hc.
    unfold variant_from_python.register, push_back in Hc.
    apply elem_of_app in Hc as [Hc|Hc].
    + apply IH; [|done]. intros i b Hb. apply (Hno i).
      by apply lookup_app_l_Some.
    + apply list_elem_of_singleton in Hc as ->. simpl.
      unfold variant_from_python.convertible.
      specialize (Hno (length alts) a).
      unfold alternative_accepts in Hno. rewrite Hno; [done|].
      by rewrite lookup_app_r, Nat.sub_diag.
Qed.

(** The chain the module initialiser builds is the one of the two
    alternatives [boost::any] and [degree_t], in this order. *)
Lemma module_deg_t_chain_alternatives (Hany : Extract any)
    (Hdegree : Extract degree_t) :
  module_deg_t_chain =
  register_alternatives
    [ {| alt_type := any; alt_extract := Hany; alt_deg := any_alternative |};
      {| alt_type := degree_t; alt_extract := Hdegree;
         alt_deg := degree_t_alternative |} ].
Proof. reflexivity. Qed.

(** C2: with the alternatives registered in the order of [alts], the
    conversion of a value gives the variant holding, as the first
    alternative in that order whose check accepts the value, the
    extraction of the value to the type of this alternative, whether or
    not later alternatives accept the value too; it fails with
    TypeConversion when no alternative accepts the value. For the chain of
    the module ([boost::any] first, [degree_t] second): a value that
    [boost::any] accepts becomes the [boost::any] alternative, also when
    [degree_t] accepts it; a value that only [degree_t] accepts becomes
    the [degree_t] alternative; a value neither accepts fails with
    TypeConversion. Converting the same value again and again gives that
    same result every time. *)
Theorem tagged_union_first_match (alts : list alternative) (obj : PyObject) :
  (∀ i a, alts !! i = Some a →
          alternative_accepts obj a = true →
          (∀ j b, j < i → alts !! j = Some b →
                  alternative_accepts obj b = false) →
          rvalue_from_python (register_alternatives alts) obj =
          (value ← @extract (alt_type a) (alt_extract a) obj;
           Ok (@to_deg (alt_type a) (alt_deg a) value)))
  ∧ ((∀ i a, alts !! i = Some a → alternative_accepts obj a = false) →
     rvalue_from_python (register_alternatives alts) obj =
     Raise TypeConversion)
  ∧ (∀ (Hany : Extract any) (Hdegree : Extract degree_t),
       (check (T:=any) obj = true →
        rvalue_from_python module_deg_t_chain obj =
        (a ← extract (T:=any) obj; Ok (deg_any a)))
       ∧ (check (T:=any) obj = false → check (T:=degree_t) obj = true →
          rvalue_from_python module_deg_t_chain obj =
          (d ← extract (T:=degree_t) obj; Ok (deg_degree d)))
       ∧ (check (T:=any) obj = false → check (T:=degree_t) obj = false →
          rvalue_from_python module_deg_t_chain obj = Raise TypeConversion))
  ∧ (∀ n, convert_repeatedly (register_alternatives alts) obj n =
          replicate n (rvalue_from_python (register_alternatives alts) obj)).
Proof.
  split; [|split; [|split]].
  - intros i a Ha Hacc Hfirst.
    destruct (list_elem_of_split_length _ _ _ Ha) as (pre & post & -> & Hi).
    destruct (register_alternatives_split pre post a) as (cp & cq & -> & Hpre).
    rewrite rvalue_from_python_app.
    + rewrite rvalue_from_python_accept; [reflexivity|]. simpl.
      unfold variant_from_python.convertible.
      unfold alternative_accepts in Hacc. by rewrite Hacc.
    + rewrite <- Hpre. apply register_alternatives_reject.
      intros j b Hb. apply (Hfirst j b).
      * apply lookup_lt_Some in Hb. lia.
      * by apply lookup_app_l_Some.
  - intros Hno.
    rewrite <- (app_nil_r (register_alternatives alts)).
    rewrite rvalue_from_python_app; [done|].
    by apply register_alternatives_reject.
  - intros Hany Hdegree.
    unfold module_deg_t_chain, variant_from_python.register, push_back.
    simpl. unfold variant_from_python.convertible,
      variant_from_python.construct.
    split; [|split].
    + intros Ha. rewrite Ha. reflexivity.
    + intros Ha Hd. rewrite Ha, Hd. reflexivity.
    + intros Ha Hd. rewrite Ha, Hd. reflexivity.
  - intros n. unfold convert_repeatedly.
    induction n as [|n IH]; simpl; [done|]. by rewrite IH.
Qed.

Lemma tagged_union_first_match_witness :
  rvalue_from_python (@module_deg_t_chain any_extract_all degree_t_extract)
                     (PyInstance "Degree" 1)
  = Ok (deg_any (any_holder 1)).
Proof.
  apply (proj1 (tagged_union_first_match
    [ {| alt_type := any; alt_extract := any_extract_all;
         alt_deg := any_alternative |};
      {| alt_type := degree_t; alt_extract := degree_t_extract;
         alt_deg := degree_t_alternative |} ]
    (PyInstance "Degree" 1)) 0 _ eq_refl eq_refl).
  intros j b Hj. lia.
Defined.

Example deg_t_conversions :
  rvalue_from_python module_deg_t_chain (PyInstance "Degree" 1)
  = Ok (deg_degree OUT_DEGREE)
  ∧ rvalue_from_python module_deg_t_chain (PyInstance "any" 7)
    = Ok (deg_any (any_holder 7))
  ∧ rvalue_from_python module_deg_t_chain (PyInt 1) = Raise TypeConversion
  ∧ convert_repeatedly module_deg_t_chain (PyInstance "Degree" 1) 3
    = [Ok (deg_degree OUT_DEGREE); Ok (deg_degree OUT_DEGREE);
       Ok (deg_degree OUT_DEGREE)].
Proof. repeat split. Qed.

(** ** Pairs *)

Section pair_from_tuple_facts.
Context {T1 T2 : Type} `{Extract T1, Extract T2}.

(** X15: a value whose items 0 and 1 exist: [convertible] accepts it exactly
    when both pass their checks, and then [construct] extracts both. *)
Lemma pair_fromHost_two_items (o : PyObject) (items : list PyObject)
    (a b : PyObject) :
  sequence_items o = Some items →
  items !! 0 = Some a → items !! 1 = Some b →
  pair_fromHost (T1:=T1) (T2:=T2) o =
  if check (T:=T1) a && check (T:=T2) b
  then (first ← extract a; second ← extract b; Ok (first, second))
  else Raise TypeConversion.
Proof.
  intros Hs Ha Hb. unfold pair_fromHost, pair_from_tuple.register.
  rewrite rvalue_from_python_single. simpl.
  unfold pair_from_tuple.convertible, pair_from_tuple.construct.
  rewrite !(getitem_sequence o items _ Hs), Ha, Hb. simpl.
  destruct (check a), (check b); simpl; done.
Qed.

(** A sequence with fewer than two items: indexing it leaves
    [convertible] with an [IndexError]. *)
Lemma pair_convertible_short (o : PyObject) (items : list PyObject) :
  sequence_items o = Some items → length items < 2 →
  pair_from_tuple.convertible (T1:=T1) (T2:=T2) o = Raise PyExc_IndexError.
Proof.
  intros Hs Hlen. unfold pair_from_tuple.convertible.
  rewrite !(getitem_sequence o items _ Hs).
  destruct items as [|a [|b items]]; simpl in *; try done. lia.
Qed.
End pair_from_tuple_facts.

(** C6, at a host tuple with a single item: the conversion to a pair ends
    with the [IndexError] of the indexing in [convertible], which is not a
    TypeConversion failure. *)
Theorem pair_fromHost_one_item {T1 T2 : Type} `{Extract T1, Extract T2}
    (x : PyObject) :
  pair_from_tuple.convertible (T1:=T1) (T2:=T2) (PyTuple [x])
  = Raise PyExc_IndexError
  ∧ pair_fromHost (T1:=T1) (T2:=T2) (PyTuple [x]) = Raise PyExc_IndexError
  ∧ pair_fromHost (T1:=T1) (T2:=T2) (PyTuple [x]) ≠ Raise TypeConversion.
Proof.
  assert (pair_fromHost (T1:=T1) (T2:=T2) (PyTuple [x])
          = Raise PyExc_IndexError) as Hr by reflexivity.
  split; [reflexivity|]. split; [done|]. by rewrite Hr.
Qed.

Example pair_fromHost_strings :
  pair_fromHost (PyTuple [PyStr "a"; PyStr "b"]) = Ok ("a", "b")
  ∧ pair_fromHost (PyList [PyStr "a"; PyStr "b"; PyInt 3]) = Ok ("a", "b")
  ∧ pair_fromHost (T1:=string) (T2:=string) (PyTuple [PyStr "a"; PyInt 3])
    = Raise TypeConversion
  ∧ pair_fromHost (T1:=string) (T2:=string) (PyInt 3) = Raise PyExc_TypeError
  ∧ pair_fromHost (T1:=string) (T2:=string) (PyTuple [])
    = Raise PyExc_IndexError
  ∧ pair_to_tuple.convert ("a", "b") = PyTuple [PyStr "a"; PyStr "b"].
Proof. repeat split. Qed.

(** ** The pickler hooks *)

(** C10: [set_pickler] stores its argument in the pickler slot and leaves
    the unpickler slot and the rest of the bridge state as they were;
    [set_unpickler] does the same for the unpickler slot; and a second
    call overwrites what the first one stored. *)
Theorem pickler_hooks_frame (o o' : PyObject) (st : BridgeState) :
  (object_pickler (set_pickler o st) = o
   ∧ object_unpickler (set_pickler o st) = object_unpickler st
   ∧ exception_translators (set_pickler o st) = exception_translators st
   ∧ deg_t_converters (set_pickler o st) = deg_t_converters st
   ∧ interpreter (set_pickler o st) = interpreter st)
  ∧ (object_unpickler (set_unpickler o st) = o
     ∧ object_pickler (set_unpickler o st) = object_pickler st
     ∧ exception_translators (set_unpickler o st) = exception_translators st
     ∧ deg_t_converters (set_unpickler o st) = deg_t_converters st
     ∧ interpreter (set_unpickler o st) = interpreter st)
  ∧ set_pickler o' (set_pickler o st) = set_pickler o' st
  ∧ set_unpickler o' (set_unpickler o st) = set_unpickler o' st.
Proof. repeat split. Qed.

(** ** The array view *)

Section array_view_facts.
Context {ValueType : Type}.

(** The view over a vector in memory: no copy, same place, same length. *)
Lemma wrap_vector_not_owned_view (vec : positive)
    (mem : gmap positive (list ValueType)) (v : list ValueType) :
  mem !! vec = Some v →
  wrap_vector_not_owned vec mem =
  Some {| data := vec; dim := length v; owns_data := false |}.
Proof. intros Hv. unfold wrap_vector_not_owned. by rewrite Hv. Qed.

(** A write through a view lands in the vector the view is over. *)
Lemma ndarray_setitem_vector (vec : positive)
    (mem : gmap positive (list ValueType)) (v : list ValueType)
    (i : nat) (x : ValueType) :
  mem !! vec = Some v → i < length v →
  ndarray_setitem {| data := vec; dim := length v; owns_data := false |}
                  i x mem
  = Some (<[vec := <[i := x]> v]> mem).
Proof.
  intros Hv Hi. unfold ndarray_setitem. simpl. rewrite Hv. simpl.
  by rewrite decide_True.
Qed.
End array_view_facts.

(** C9: for an element type that [numpy_types] has, the exported class
    defines [get_array]; the array it returns for a vector in memory owns
    no data and sits on the storage of the vector with the length of the
    vector; and an element written through it at a position inside the
    vector is the element the sequence adapter then reads from the vector
    at that position, the other positions being unchanged. *)
Theorem get_array_aliases {ValueType : Type} `{Extract ValueType}
    (type_name : string) (vec : positive)
    (mem : gmap positive (list ValueType)) (v : list ValueType)
    (i : nat) (x : ValueType) :
  mem !! vec = Some v → i < length v →
  "get_array" ∈ methods (export_vector_types.call (ValueType:=ValueType)
                           type_name true).1
  ∧ ∃ a mem',
      wrap_vector_not_owned vec mem = Some a
      ∧ owns_data a = false ∧ data a = vec ∧ dim a = length v
      ∧ ndarray_setitem a i x mem = Some mem'
      ∧ vector_getitem vec i mem' = Some x
      ∧ ∀ j, j ≠ i → vector_getitem vec j mem' = vector_getitem vec j mem.
Proof.
  intros Hv Hi. split.
  - unfold export_vector_types.call. simpl. set_solver.
  - eexists _, _. rewrite (wrap_vector_not_owned_view vec mem v Hv).
    split; [done|]. simpl. repeat (split; [done|]).
    rewrite (ndarray_setitem_vector vec mem v i x Hv Hi).
    split; [done|]. unfold vector_getitem.
    rewrite lookup_insert_eq, Hv. simpl. split.
    + by apply list_lookup_insert_eq.
    + intros j Hj. by apply list_lookup_insert_ne.
Qed.

Lemma get_array_aliases_witness :
  "get_array" ∈ methods (export_vector_types.call (ValueType:=string)
                           "string" true).1
  ∧ ∃ a mem',
      wrap_vector_not_owned 1%positive {[ 1%positive := ["a"; "b"] ]} = Some a
      ∧ owns_data a = false ∧ data a = 1%positive ∧ dim a = 2
      ∧ ndarray_setitem a 1 "z" {[ 1%positive := ["a"; "b"] ]} = Some mem'
      ∧ vector_getitem 1%positive 1 mem' = Some "z"
      ∧ ∀ j, j ≠ 1 → vector_getitem 1%positive j mem'
                     = vector_getitem 1%positive j {[ 1%positive := ["a"; "b"] ]}.
Proof.
  apply (get_array_aliases (ValueType:=string) "string" 1%positive
           {[ 1%positive := ["a"; "b"] ]} ["a"; "b"] 1 "z").
  - reflexivity.
  - simpl. lia.
Defined.

Example wrap_array_gate :
  methods (export_vector_types.wrap_array
             {| class_name := "Vector_string"; methods := [] |} false) = []
  ∧ methods (export_vector_types.wrap_array
               {| class_name := "Vector_double"; methods := [] |} true)
    = ["get_array"]
  ∧ class_name (export_vector_types.call (ValueType:=string)
                  "long double" true).1 = "Vector_long_double".
Proof. repeat split. Qed.

(** * Further properties *)

(** ** [vector_from_list]: what a conversion returns and how it fails *)

Section vector_from_list_more.
Context {ValueType : Type} `{Extract ValueType}.

(** A result of the loop of [construct] extends the vector built so far
    by the extractions of the items it visited, in order. *)
Lemma construct_loop_inv (o : PyObject) (items : list PyObject) n i
    (value r : list ValueType) :
  sequence_items o = Some items →
  i + n ≤ length items →
  vector_from_list.construct_loop o n i value = Ok r →
  ∃ vs, r = value ++ vs
        ∧ Forall2 (λ x v, extract x = Ok v) (take n (drop i items)) vs.
Proof.
  intros Hs. revert i value.
  induction n as [|n IH]; intros i value Hlen; simpl.
  - intros [= <-]. exists []. split; [by rewrite app_nil_r|constructor].
  - rewrite (getitem_sequence o items i Hs).
    destruct (lookup_lt_is_Some_2 items i) as [x Hx]; [lia|].
    rewrite Hx. simpl. rewrite (drop_S _ _ _ Hx). simpl.
    destruct (extract x) as [v|e] eqn:Hv; simpl; [|done].
    intros Hr. destruct (IH (S i) (value ++ [v])) as (vs & -> & Hvs);
      [lia|done|].
    exists (v :: vs). split; [by rewrite <- app_assoc|by constructor].
Qed.

(** The loop of [construct] leaves with the error of the first item it
    visits whose extraction fails. *)
Lemma construct_loop_error (o : PyObject) (items : list PyObject) n i k
    (value : list ValueType) (x : PyObject) (e : PyExc) :
  sequence_items o = Some items →
  i ≤ k < i + n →
  items !! k = Some x → extract (T:=ValueType) x = Raise e →
  (∀ j y, i ≤ j < k → items !! j = Some y →
          ∃ v : ValueType, extract y = Ok v) →
  vector_from_list.construct_loop o n i value = Raise e.
Proof.
  intros Hs. revert i value.
  induction n as [|n IH]; intros i value Hk Hx He Hbefore; simpl; [lia|].
  rewrite (getitem_sequence o items i Hs).
  destruct (decide (i = k)) as [->|Hne].
  - rewrite Hx. simpl. by rewrite He.
  - destruct (lookup_lt_is_Some_2 items i) as [y Hy].
    { apply lookup_lt_Some in Hx. lia. }
    rewrite Hy. simpl. destruct (Hbefore i y) as [v Hv]; [lia|done|].
    rewrite Hv. simpl. apply IH; [lia|done..|].
    intros j z Hj. apply Hbefore. lia.
Qed.

(** The loops look at a host value only through its length and items. *)
Lemma construct_loop_same_items (o1 o2 : PyObject) (items : list PyObject)
    n i (value : list ValueType) :
  sequence_items o1 = Some items → sequence_items o2 = Some items →
  vector_from_list.construct_loop o1 n i value =
  vector_from_list.construct_loop o2 n i value.
Proof.
  intros H1 H2. revert i value. induction n as [|n IH]; intros i value; simpl;
    [done|].
  rewrite (getitem_sequence o1 items i H1), (getitem_sequence o2 items i H2).
  destruct (items !! i) as [x|]; simpl; [|done].
  destruct (extract x); simpl; [apply IH|done].
Qed.
End vector_from_list_more.

(** X1: when [fromHost] returns a vector for a host sequence, every item of
    the sequence passed the element check, the vector has one element per
    item, and the element at each position is the extraction of the item at
    that position. *)
Theorem fromHost_sound {ValueType : Type} `{Extract ValueType}
    (S : PyObject) (items : list PyObject) (v : list ValueType) :
  sequence_items S = Some items →
  fromHost S = Ok v →
  (∀ i x, items !! i = Some x → check x = true)
  ∧ length v = length items
  ∧ (∀ i x, items !! i = Some x → ∃ e, v !! i = Some e ∧ extract x = Ok e).
Proof.
  intros Hs. rewrite (fromHost_sequence S items Hs).
  destruct (forallb check items) eqn:Hall; [|done].
  unfold vector_from_list.construct. rewrite (len_sequence S items Hs). simpl.
  intros Hr.
  destruct (construct_loop_inv S items (length items) 0 [] v Hs) as
    (vs & -> & Hvs); [lia|done|].
  rewrite drop_0, firstn_all in Hvs. simpl.
  split; [by apply forallb_lookup|].
  split; [symmetry; by eapply Forall2_length|].
  intros i x Hx. destruct (Forall2_lookup_l _ _ _ _ _ Hvs Hx) as (e & He & Hex).
  by exists e.
Qed.

Lemma fromHost_sound_witness :
  (∀ i x, [PyStr "a"; PyStr "b"] !! i = Some x → check (T:=string) x = true)
  ∧ length ["a"; "b"] = length [PyStr "a"; PyStr "b"]
  ∧ (∀ i x, [PyStr "a"; PyStr "b"] !! i = Some x →
            ∃ e, ["a"; "b"] !! i = Some e ∧ extract x = Ok e).
Proof.
  apply (fromHost_sound (PyTuple [PyStr "a"; PyStr "b"])
                        [PyStr "a"; PyStr "b"] ["a"; "b"]); reflexivity.
Defined.

(** X2: when every item of a host sequence passes the element check but the
    extraction of one of them fails, all items before it being extracted,
    [fromHost] leaves with the error of that extraction, not with
    TypeConversion, and returns no vector. *)
Theorem fromHost_extract_error {ValueType : Type} `{Extract ValueType}
    (S : PyObject) (items : list PyObject) (k : nat) (x : PyObject)
    (e : PyExc) :
  sequence_items S = Some items →
  (∀ i y, items !! i = Some y → check y = true) →
  items !! k = Some x → extract (T:=ValueType) x = Raise e →
  (∀ j y, j < k → items !! j = Some y → ∃ v : ValueType, extract y = Ok v) →
  vector_from_list.convertible (ValueType:=ValueType) S = Ok true
  ∧ fromHost (ValueType:=ValueType) S = Raise e.
Proof.
  intros Hs Hall Hx He Hbefore.
  rewrite (convertible_spec S items Hs), (fromHost_sequence S items Hs).
  rewrite (proj2 (forallb_lookup items) Hall). split; [done|].
  unfold vector_from_list.construct. rewrite (len_sequence S items Hs). simpl.
  apply (construct_loop_error S items _ 0 k [] x e Hs); [|done..|].
  - apply lookup_lt_Some in Hx. lia.
  - intros j y Hj. apply Hbefore. lia.
Qed.

Lemma fromHost_extract_error_witness :
  vector_from_list.convertible (H:=int32_extract)
    (PyList [PyInt 1; PyInt 4294967296; PyInt 2]) = Ok true
  ∧ fromHost (H:=int32_extract) (PyList [PyInt 1; PyInt 4294967296; PyInt 2])
    = Raise PyExc_OverflowError.
Proof.
  apply (fromHost_extract_error (H:=int32_extract)
           (PyList [PyInt 1; PyInt 4294967296; PyInt 2])
           [PyInt 1; PyInt 4294967296; PyInt 2] 1 (PyInt 4294967296)
           PyExc_OverflowError).
  - reflexivity.
  - intros [|[|[|i]]] y Hy; simpl in Hy; inversion Hy; reflexivity.
  - reflexivity.
  - reflexivity.
  - intros [|j] y Hj Hy; [|lia]. simpl in Hy. inversion Hy. by eexists.
Defined.

(** X3: [None], a bool and an int have no length: for them
    [convertible] does not answer 0 but leaves with the [TypeError] of
    [len], and so do [construct] and [fromHost]. *)
Theorem fromHost_not_sequence {ValueType : Type} `{Extract ValueType}
    (o : PyObject) :
  (o = PyNone ∨ (∃ b, o = PyBool b) ∨ (∃ z, o = PyInt z)) →
  vector_from_list.convertible (ValueType:=ValueType) o
  = Raise PyExc_TypeError
  ∧ vector_from_list.construct (ValueType:=ValueType) o
    = Raise PyExc_TypeError
  ∧ fromHost (ValueType:=ValueType) o = Raise PyExc_TypeError.
Proof. intros [->|[[b ->]|[z ->]]]; done. Qed.

Lemma fromHost_not_sequence_witness :
  vector_from_list.convertible (ValueType:=string) (PyInt 3)
  = Raise PyExc_TypeError
  ∧ vector_from_list.construct (ValueType:=string) (PyInt 3)
    = Raise PyExc_TypeError
  ∧ fromHost (ValueType:=string) (PyInt 3) = Raise PyExc_TypeError.
Proof.
  apply (fromHost_not_sequence (ValueType:=string) (PyInt 3)).
  right. right. by exists 3%Z.
Defined.

(** X4: two host sequences with the same items convert alike: a list, a tuple
    and any other sequence of these items give the same result. *)
Theorem fromHost_same_items {ValueType : Type} `{Extract ValueType}
    (S1 S2 : PyObject) (items : list PyObject) :
  sequence_items S1 = Some items → sequence_items S2 = Some items →
  vector_from_list.convertible (ValueType:=ValueType) S1
  = vector_from_list.convertible (ValueType:=ValueType) S2
  ∧ fromHost (ValueType:=ValueType) S1 = fromHost (ValueType:=ValueType) S2.
Proof.
  intros H1 H2.
  rewrite (convertible_spec S1 items H1), (convertible_spec S2 items H2).
  rewrite (fromHost_sequence S1 items H1), (fromHost_sequence S2 items H2).
  split; [done|]. destruct (forallb check items); [|done].
  unfold vector_from_list.construct.
  rewrite (len_sequence S1 items H1), (len_sequence S2 items H2). simpl.
  by apply construct_loop_same_items with items.
Qed.

Lemma fromHost_same_items_witness :
  vector_from_list.convertible (ValueType:=string) (PyStr "ab")
  = vector_from_list.convertible (ValueType:=string)
      (PyList [PyStr "a"; PyStr "b"])
  ∧ fromHost (ValueType:=string) (PyStr "ab")
    = fromHost (ValueType:=string) (PyList [PyStr "a"; PyStr "b"]).
Proof.
  apply (fromHost_same_items (ValueType:=string) (PyStr "ab")
           (PyList [PyStr "a"; PyStr "b"]) [PyStr "a"; PyStr "b"]);
    reflexivity.
Defined.

(** ** Vector comparison as a relation *)

Section vector_compare_more.
Context {ValueType : Type} `{NotEqual ValueType}.

Lemma vector_equal_compare_true_iff (a b : list ValueType) :
  vector_equal_compare a b = Some true ↔
  length a = length b
  ∧ ∀ i x y, a !! i = Some x → b !! i = Some y → ne x y = false.
Proof.
  unfold vector_equal_compare.
  destruct (Nat.eqb_spec (length a) (length b)) as [Heq|Hneq]; simpl.
  - destruct (equal_loop_spec a b (length a) 0) as (r & -> & Hiff); [lia..|].
    split.
    + intros [= ->]. split; [done|]. intros i x y Hx Hy.
      apply (proj1 Hiff eq_refl i); [|done..]. apply lookup_lt_Some in Hx. lia.
    + intros [_ Hall]. f_equal. apply Hiff. intros j x y _. apply Hall.
  - split; [done|]. by intros [? _].
Qed.

(** Two comparisons that are [true] in the same cases have the same
    answer. *)
Lemma vector_equal_compare_same_answer (a b c d : list ValueType) :
  (vector_equal_compare a b = Some true ↔
   vector_equal_compare c d = Some true) →
  vector_equal_compare a b = vector_equal_compare c d.
Proof.
  destruct (vector_equal_compare_returns a b) as [r1 ->].
  destruct (vector_equal_compare_returns c d) as [r2 ->].
  intros [H1 H2]. destruct r1, r2; try done.
  - by specialize (H1 eq_refl).
  - by specialize (H2 eq_refl).
Qed.
End vector_compare_more.

(** X5: a vector compares equal to itself exactly when [!=] is false on each
    of its elements against itself; one element that differs from itself
    makes the vector unequal to itself. *)
Theorem vector_equal_compare_self {ValueType : Type} `{NotEqual ValueType}
    (v : list ValueType) :
  (vector_equal_compare v v = Some true ↔
   ∀ i x, v !! i = Some x → ne x x = false)
  ∧ (vector_equal_compare v v = Some false ↔
     ∃ i x, v !! i = Some x ∧ ne x x = true).
Proof.
  assert (vector_equal_compare v v = Some true ↔
          ∀ i x, v !! i = Some x → ne x x = false) as Htrue.
  { rewrite vector_equal_compare_true_iff. split.
    - intros [_ Hall] i x Hx. by apply (Hall i).
    - intros Hall. split; [done|]. intros i x y Hx Hy.
      assert (x = y) as <- by congruence. by apply (Hall i). }
  split; [done|].
  destruct (vector_equal_compare_returns v v) as [r Hr]. rewrite Hr in *.
  split.
  - intros [= ->].
    destruct (decide (Exists (λ x, ne x x = true) v)) as [Hex|Hno].
    + apply Exists_exists in Hex as (x & Hin & Hx).
      apply list_elem_of_lookup_1 in Hin as [i Hi]. by exists i, x.
    + assert (Some false = Some true) as Habs; [|done].
      apply Htrue. intros i x Hx. destruct (ne x x) eqn:Hne; [|done].
      destruct Hno. apply Exists_exists. exists x.
      split; [by eapply list_elem_of_lookup_2|done].
  - intros (i & x & Hx & Hne). destruct r; [|done].
    rewrite (proj1 Htrue eq_refl i x Hx) in Hne. done.
Qed.

(** X6: when [!=] does not depend on the order of its operands, neither does
    the comparison of two vectors. *)
Theorem vector_equal_compare_sym {ValueType : Type} `{NotEqual ValueType}
    (a b : list ValueType) :
  (∀ x y : ValueType, ne x y = ne y x) →
  vector_equal_compare a b = vector_equal_compare b a
  ∧ vector_nequal_compare a b = vector_nequal_compare b a.
Proof.
  intros Hsym.
  assert (vector_equal_compare a b = vector_equal_compare b a) as Heq.
  { apply vector_equal_compare_same_answer.
    rewrite !vector_equal_compare_true_iff. split.
    - intros [Hlen Hall]. split; [done|]. intros i x y Hx Hy.
      rewrite Hsym. by apply (Hall i).
    - intros [Hlen Hall]. split; [done|]. intros i x y Hx Hy.
      rewrite Hsym. by apply (Hall i). }
  split; [done|]. unfold vector_nequal_compare. by rewrite Heq.
Qed.

Lemma string_ne_sym (x y : string) : ne x y = ne y x.
Proof. simpl. by rewrite String.eqb_sym. Qed.

Lemma string_ne_spec (x y : string) : ne x y = false ↔ x = y.
Proof.
  simpl. rewrite negb_false_iff. apply String.eqb_eq.
Qed.

Lemma vector_equal_compare_sym_witness :
  vector_equal_compare ["a"; "b"] ["a"; "c"]
  = vector_equal_compare ["a"; "c"] ["a"; "b"]
  ∧ vector_nequal_compare ["a"; "b"] ["a"; "c"]
    = vector_nequal_compare ["a"; "c"] ["a"; "b"].
Proof.
  apply (vector_equal_compare_sym ["a"; "b"] ["a"; "c"] string_ne_sym).
Defined.

Lemma vector_equal_compare_eq_witness :
  vector_equal_compare ["a"; "b"] ["a"; "b"] = Some true
  ↔ ["a"; "b"] = ["a"; "b"].
Proof.
  apply (vector_equal_compare_eq ["a"; "b"] ["a"; "b"] string_ne_spec).
Defined.

(** X7: when [!=] is false on [x], [z] whenever it is false on [x], [y] and on
    [y], [z], two vectors that both compare equal to a third compare equal
    to each other. *)
Theorem vector_equal_compare_trans {ValueType : Type} `{NotEqual ValueType}
    (a b c : list ValueType) :
  (∀ x y z : ValueType, ne x y = false → ne y z = false → ne x z = false) →
  vector_equal_compare a b = Some true →
  vector_equal_compare b c = Some true →
  vector_equal_compare a c = Some true.
Proof.
  intros Htrans. rewrite !vector_equal_compare_true_iff.
  intros [Hab Hall1] [Hbc Hall2]. split; [congruence|].
  intros i x z Hx Hz.
  destruct (lookup_lt_is_Some_2 b i) as [y Hy].
  { apply lookup_lt_Some in Hx. lia. }
  apply (Htrans x y z); [by apply (Hall1 i)|by apply (Hall2 i)].
Qed.

Lemma string_ne_trans (x y z : string) :
  ne x y = false → ne y z = false → ne x z = false.
Proof. rewrite !string_ne_spec. congruence. Qed.

Lemma vector_equal_compare_trans_witness :
  vector_equal_compare ["u"; "v"] ["u"; "v"] = Some true.
Proof.
  apply (vector_equal_compare_trans ["u"; "v"] ["u"; "v"] ["u"; "v"]
           string_ne_trans); reflexivity.
Defined.

(** X8: comparing two vectors that begin with parts of the same length is
    comparing these parts and comparing what follows them: the answer is
    the conjunction of the two answers. *)
Theorem vector_equal_compare_app {ValueType : Type} `{NotEqual ValueType}
    (a a' b b' : list ValueType) :
  length a = length b →
  ∃ r1 r2,
    vector_equal_compare a b = Some r1
    ∧ vector_equal_compare a' b' = Some r2
    ∧ vector_equal_compare (a ++ a') (b ++ b') = Some (r1 && r2).
Proof.
  intros Hlen.
  destruct (vector_equal_compare_returns a b) as [r1 Hr1].
  destruct (vector_equal_compare_returns a' b') as [r2 Hr2].
  exists r1, r2. split; [done|]. split; [done|].
  destruct (vector_equal_compare_returns (a ++ a') (b ++ b')) as [r Hr].
  rewrite Hr. f_equal.
  assert (r = true ↔ r1 = true ∧ r2 = true) as Hiff.
  { assert (∀ u w : list ValueType, ∀ s,
              vector_equal_compare u w = Some s →
              (s = true ↔ vector_equal_compare u w = Some true)) as Hans.
    { intros u w s ->. split; [by intros ->|by intros [= ->]]. }
    rewrite (Hans _ _ _ Hr), (Hans _ _ _ Hr1), (Hans _ _ _ Hr2).
    rewrite !vector_equal_compare_true_iff, !length_app. split.
    - intros [Hl Hall]. split; (split; [lia|]).
      + intros i x y Hx Hy. apply (Hall i); by apply lookup_app_l_Some.
      + intros i x y Hx Hy. apply (Hall (length a + i)).
        * rewrite lookup_app_r by lia.
          by replace (length a + i - length a) with i by lia.
        * rewrite lookup_app_r by lia.
          by replace (length a + i - length b) with i by lia.
    - intros [[_ Hall1] [Hl2 Hall2]]. split; [lia|]. intros i x y Hx Hy.
      destruct (decide (i < length a)) as [Hi|Hi].
      + rewrite lookup_app_l in Hx by lia. rewrite lookup_app_l in Hy by lia.
        by apply (Hall1 i).
      + rewrite lookup_app_r in Hx by lia. rewrite lookup_app_r in Hy by lia.
        rewrite <- Hlen in Hy. by apply (Hall2 (i - length a)). }
  destruct r, r1, r2; simpl; try done.
  - by destruct (proj1 Hiff eq_refl).
  - by destruct (proj1 Hiff eq_refl).
  - by destruct (proj1 Hiff eq_refl).
  - by specialize (proj2 Hiff (conj eq_refl eq_refl)).
Qed.

Lemma vector_equal_compare_app_witness :
  ∃ r1 r2,
    vector_equal_compare ["a"] ["a"] = Some r1
    ∧ vector_equal_compare ["b"; "c"] ["b"; "d"] = Some r2
    ∧ vector_equal_compare (["a"] ++ ["b"; "c"]) (["a"] ++ ["b"; "d"])
      = Some (r1 && r2).
Proof.
  apply (vector_equal_compare_app ["a"] ["b"; "c"] ["a"] ["b"; "d"]).
  reflexivity.
Defined.

(** ** The exception translator: what it touches and when it runs *)

(** X10: a translation that is defined replaces whatever error was pending
    by one whose text is the C string of [what()], and leaves every
    attribute dictionary as it was: the attribute write of the translator
    is refused, and nothing else is written. *)
Theorem translator_frame (E : ExceptionType) (e : Exception)
    (st st' : PyState) :
  graph_exception_translator E e st = Some st' →
  (∃ c, err_indicator st' = Some (c, c_str (what e)))
  ∧ type_attrs st' = type_attrs st
  ∧ ∀ st0, type_attrs st0 = type_attrs st →
           graph_exception_translator E e st0 = Some st'.
Proof.
  destruct E as [| | |name]; intros Hs; [| | |done].
  - rewrite translator_GraphException in Hs. inversion Hs; subst. simpl.
    split; [by eexists|]. split; [done|].
    intros st0 H0. by rewrite translator_GraphException, H0.
  - rewrite translator_IOException in Hs. inversion Hs; subst. simpl.
    split; [by eexists|]. split; [done|].
    intros st0 H0. by rewrite translator_IOException, H0.
  - rewrite translator_ValueException in Hs. inversion Hs; subst. simpl.
    split; [by eexists|]. split; [done|].
    intros st0 H0. by rewrite translator_ValueException, H0.
Qed.

Lemma translator_frame_witness :
  (∃ c, err_indicator
          {| type_attrs := λ _, {[ "args" := PyNone ]};
             err_indicator := Some (PyExc_IOError, "no such file") |}
        = Some (c, c_str "no such file"))
  ∧ type_attrs
      {| type_attrs := λ _, {[ "args" := PyNone ]};
         err_indicator := Some (PyExc_IOError, "no such file") |}
    = type_attrs
        {| type_attrs := λ _, {[ "args" := PyNone ]};
           err_indicator := Some (PyExc_ValueError, "old") |}
  ∧ ∀ st0,
      type_attrs st0
      = type_attrs
          {| type_attrs := λ _, {[ "args" := PyNone ]};
             err_indicator := Some (PyExc_ValueError, "old") |} →
      graph_exception_translator IOException
        {| dynamic_type := IOException; what := "no such file" |} st0
      = Some {| type_attrs := λ _, {[ "args" := PyNone ]};
                err_indicator := Some (PyExc_IOError, "no such file") |}.
Proof.
  apply (translator_frame IOException
           {| dynamic_type := IOException; what := "no such file" |}
           {| type_attrs := λ _, {[ "args" := PyNone ]};
              err_indicator := Some (PyExc_ValueError, "old") |}).
  reflexivity.
Defined.


(** X12: [raise_error(msg)], called from Python, comes back as a pending
    [RuntimeError] whose text is [msg] up to its first NUL, all of [msg]
    when it has none, whatever error was pending before. *)
Theorem raise_error_runtime_error (msg : string) (st : PyState) :
  (∃ st',
     handle_exception module_exception_translators (raise_error msg) st
     = Some (Some st')
     ∧ pending_error st' =
       Some {| category := PyExc_RuntimeError; display_text := c_str msg |})
  ∧ (nul_free msg = true →
     ∃ st',
       handle_exception module_exception_translators (raise_error msg) st
       = Some (Some st')
       ∧ pending_error st' =
         Some {| category := PyExc_RuntimeError; display_text := msg |}).
Proof.
  split.
  - eexists. split; reflexivity.
  - intros Hfree. eexists. split; [reflexivity|].
    unfold pending_error. simpl. by rewrite (c_str_nul_free msg Hfree).
Qed.

Lemma raise_error_runtime_error_witness :
  ∃ st',
    handle_exception module_exception_translators
      (raise_error "vertex not found")
      {| type_attrs := λ _, ∅;
         err_indicator := Some (PyExc_ValueError, "old") |}
    = Some (Some st')
    ∧ pending_error st' =
      Some {| category := PyExc_RuntimeError;
              display_text := "vertex not found" |}.
Proof.
  apply (proj2 (raise_error_runtime_error "vertex not found"
           {| type_attrs := λ _, ∅;
              err_indicator := Some (PyExc_ValueError, "old") |})).
  reflexivity.
Defined.

(** ** Pairs: round trip and what the conversion looks at *)

(** X13: a pair converted to a tuple by [pair_to_tuple] and back by
    [pair_from_tuple] is the pair itself, for element types whose
    to-python image passes the check and is extracted to the value it came
    from. *)
Theorem pair_round_trip {T1 T2 : Type}
    `{Extract T1, ToPython T1, Extract T2, ToPython T2} (p : T1 * T2) :
  (∀ v : T1, check (T:=T1) (to_python v) = true
             ∧ extract (to_python v) = Ok v) →
  (∀ v : T2, check (T:=T2) (to_python v) = true
             ∧ extract (to_python v) = Ok v) →
  pair_from_tuple.convertible (T1:=T1) (T2:=T2) (pair_to_tuple.convert p)
  = Ok true
  ∧ pair_fromHost (pair_to_tuple.convert p) = Ok p.
Proof.
  intros H1' H2'. destruct p as [a b].
  destruct (H1' a) as [Hca Hea], (H2' b) as [Hcb Heb].
  unfold pair_fromHost, pair_from_tuple.register.
  rewrite rvalue_from_python_single. simpl.
  unfold pair_from_tuple.convertible, pair_from_tuple.construct. simpl.
  rewrite Hca, Hcb. simpl. rewrite Hea. simpl. by rewrite Heb.
Qed.

Lemma string_to_python_extract (v : string) :
  check (T:=string) (to_python v) = true ∧ extract (to_python v) = Ok v.
Proof. done. Qed.

Lemma pair_round_trip_witness :
  pair_from_tuple.convertible (T1:=string) (T2:=string)
    (pair_to_tuple.convert ("source", "target")) = Ok true
  ∧ pair_fromHost (pair_to_tuple.convert ("source", "target"))
    = Ok ("source", "target").
Proof.
  apply (pair_round_trip ("source", "target")
           string_to_python_extract string_to_python_extract).
Defined.

(** X14: the conversion to a pair looks at the first two items only: a
    sequence with more items converts like the tuple of its first two,
    whether it is a list, a tuple or a string. *)
Theorem pair_fromHost_first_two {T1 T2 : Type} `{Extract T1, Extract T2}
    (o : PyObject) (a b : PyObject) (rest : list PyObject) :
  sequence_items o = Some (a :: b :: rest) →
  pair_fromHost (T1:=T1) (T2:=T2) o
  = pair_fromHost (T1:=T1) (T2:=T2) (PyTuple [a; b]).
Proof.
  intros Hs. unfold pair_fromHost, pair_from_tuple.register.
  rewrite !rvalue_from_python_single. simpl.
  unfold pair_from_tuple.convertible, pair_from_tuple.construct.
  rewrite !(getitem_sequence o _ _ Hs). reflexivity.
Qed.

Lemma pair_fromHost_first_two_witness :
  pair_fromHost (T1:=string) (T2:=string)
    (PyList [PyStr "a"; PyStr "b"; PyInt 3; PyNone])
  = pair_fromHost (T1:=string) (T2:=string) (PyTuple [PyStr "a"; PyStr "b"]).
Proof.
  apply (pair_fromHost_first_two (T1:=string) (T2:=string)
           (PyList [PyStr "a"; PyStr "b"; PyInt 3; PyNone])
           (PyStr "a") (PyStr "b") [PyInt 3; PyNone]).
  reflexivity.
Defined.

Lemma pair_fromHost_two_items_witness :
  pair_fromHost (T1:=string) (T2:=string) (PyTuple [PyStr "a"; PyInt 3])
  = if check (T:=string) (PyStr "a") && check (T:=string) (PyInt 3)
    then (first ← extract (PyStr "a"); second ← extract (PyInt 3);
          Ok (first, second))
    else Raise TypeConversion.
Proof.
  apply (pair_fromHost_two_items (T1:=string) (T2:=string)
           (PyTuple [PyStr "a"; PyInt 3]) [PyStr "a"; PyInt 3]
           (PyStr "a") (PyInt 3)); reflexivity.
Defined.

(** ** Registration and the tagged union *)

(** X16: a converter registered later never changes the conversion of a value
    that converted before: [push_back] puts it behind the entries that
    are already there. *)
Theorem push_back_keeps_result {R : Type} (c : rvalue_from_python_chain R)
    (chain : list (rvalue_from_python_chain R)) (obj : PyObject) (r : R) :
  rvalue_from_python chain obj = Ok r →
  rvalue_from_python (push_back c chain) obj = Ok r.
Proof.
  unfold push_back. induction chain as [|c0 chain IH]; simpl; [done|].
  destruct (rv_convertible c0 obj) as [[|]|e]; simpl; [done| |done].
  apply IH.
Qed.

Lemma push_back_keeps_result_witness :
  rvalue_from_python
    (variant_from_python.register (H:=degree_t_extract)
       (variant_from_python.register (H:=any_extract) []))
    (PyInstance "any" 5)
  = Ok (deg_any (any_holder 5)).
Proof.
  apply (push_back_keeps_result
           {| rv_convertible :=
                variant_from_python.convertible (H:=degree_t_extract);
              rv_construct :=
                variant_from_python.construct (H:=degree_t_extract) |}
           (variant_from_python.register (H:=any_extract) [])
           (PyInstance "any" 5) (deg_any (any_holder 5))).
  reflexivity.
Defined.

(** X17: registering the same converter twice makes the chain longer, since
    [push_back] does not look for an entry that is already there, but
    converts every value as one registration does. *)
Theorem push_back_twice {R : Type} (c : rvalue_from_python_chain R)
    (chain : list (rvalue_from_python_chain R)) (obj : PyObject) :
  length (push_back c (push_back c chain)) = S (length (push_back c chain))
  ∧ rvalue_from_python (push_back c (push_back c chain)) obj
    = rvalue_from_python (push_back c chain) obj.
Proof.
  unfold push_back. split; [rewrite !length_app; simpl; lia|].
  induction chain as [|c0 chain IH]; simpl.
  - destruct (rv_convertible c obj) as [[|]|e]; reflexivity.
  - destruct (rv_convertible c0 obj) as [[|]|e]; simpl; [done| |done].
    apply IH.
Qed.

(** X18: what the chain of the module makes of a value tells which checks the
    value passed: a [boost::any] alternative means its check accepted the
    value; a [degree_t] alternative means the check of [boost::any], which
    is registered first, refused the value and the one of [degree_t]
    accepted it. In both cases the content is the extraction of the
    value. *)
Theorem module_deg_t_chain_result (Hany : Extract any)
    (Hdegree : Extract degree_t) (obj : PyObject) (r : deg_t) :
  rvalue_from_python module_deg_t_chain obj = Ok r →
  match r with
  | deg_any a =>
      check (T:=any) obj = true ∧ extract obj = Ok a
  | deg_degree d =>
      check (T:=any) obj = false
      ∧ check (T:=degree_t) obj = true ∧ extract obj = Ok d
  end.
Proof.
  unfold module_deg_t_chain, variant_from_python.register, push_back. simpl.
  unfold variant_from_python.convertible, variant_from_python.construct.
  destruct (check (T:=any) obj) eqn:Ha; simpl.
  - destruct (extract (T:=any) obj) as [a|e]; simpl; [|done].
    by intros [= <-].
  - destruct (check (T:=degree_t) obj) eqn:Hd; simpl; [|done].
    destruct (extract (T:=degree_t) obj) as [d|e]; simpl; [|done].
    by intros [= <-].
Qed.

Lemma module_deg_t_chain_result_witness :
  check (T:=any) (PyInstance "Degree" 2) = false
  ∧ check (T:=degree_t) (PyInstance "Degree" 2) = true
  ∧ extract (PyInstance "Degree" 2) = Ok TOTAL_DEGREE.
Proof.
  apply (module_deg_t_chain_result any_extract degree_t_extract
           (PyInstance "Degree" 2) (deg_degree TOTAL_DEGREE)).
  reflexivity.
Defined.

(** ** [get_property_types] *)

Lemma get_property_types_loop_spec (type_names : list string) n i
    (plist : list PyObject) :
  i + n ≤ length type_names →
  get_property_types_loop type_names n i plist =
  Some (plist ++ (PyStr <$> take n (drop i type_names))).
Proof.
  revert i plist. induction n as [|n IH]; intros i plist Hlen; simpl.
  - by rewrite app_nil_r.
  - destruct (lookup_lt_is_Some_2 type_names i) as [name Hname]; [lia|].
    rewrite Hname. simpl. rewrite IH by lia.
    rewrite (drop_S _ _ _ Hname). simpl. by rewrite <- app_assoc.
Qed.

Lemma get_property_types_loop_past_end (type_names : list string) n i
    (plist : list PyObject) :
  i ≤ length type_names < i + n →
  get_property_types_loop type_names n i plist = None.
Proof.
  revert i plist. induction n as [|n IH]; intros i plist Hlen; simpl; [lia|].
  destruct (type_names !! i) as [name|] eqn:Hname; simpl; [|done].
  apply lookup_lt_Some in Hname. apply IH. lia.
Qed.

(** X19: [get_property_types] returns the Python list of the first [size]
    names of the table, in the order of the table, when the table has that
    many names; with a shorter table the loop reads past its end. *)
Theorem get_property_types_spec (size : nat) (type_names : list string) :
  (size ≤ length type_names →
   get_property_types size type_names =
   Some (PyList (PyStr <$> take size type_names)))
  ∧ (size = length type_names →
     get_property_types size type_names = Some (PyList (PyStr <$> type_names)))
  ∧ (length type_names < size → get_property_types size type_names = None).
Proof.
  unfold get_property_types. split; [|split].
  - intros Hlen. rewrite get_property_types_loop_spec by lia.
    by rewrite drop_0.
  - intros ->. rewrite get_property_types_loop_spec by lia.
    by rewrite drop_0, firstn_all.
  - intros Hlen. by rewrite get_property_types_loop_past_end by lia.
Qed.

Lemma get_property_types_spec_witness :
  get_property_types 2 ["bool"; "int32_t"; "double"]
  = Some (PyList (PyStr <$> take 2 ["bool"; "int32_t"; "double"])).
Proof.
  apply (proj1 (get_property_types_spec 2 ["bool"; "int32_t"; "double"])).
  simpl. lia.
Defined.

(** ** The exported vector classes *)

(** X20: whatever the element type is named, its class defines [get_array]
    exactly when [numpy_types] has the type, defines the two comparison
    operators in any case, and no method twice. *)
Theorem export_vector_types_methods {ValueType : Type} `{Extract ValueType}
    (type_name : string) (has_key : bool) :
  ("get_array" ∈ methods (export_vector_types.call (ValueType:=ValueType)
                            type_name has_key).1 ↔ has_key = true)
  ∧ "__eq__" ∈ methods (export_vector_types.call (ValueType:=ValueType)
                          type_name has_key).1
  ∧ "__ne__" ∈ methods (export_vector_types.call (ValueType:=ValueType)
                          type_name has_key).1
  ∧ NoDup (methods (export_vector_types.call (ValueType:=ValueType)
                      type_name has_key).1).
Proof.
  assert (∀ l : list string, bool_decide (NoDup l) = true → NoDup l) as Hnodup
    by (intros l; apply bool_decide_eq_true_1).
  assert (∀ (x : string) (l : list string),
            bool_decide (x ∈ l) = true → x ∈ l) as Hin
    by (intros x l; apply bool_decide_eq_true_1).
  assert (∀ (x : string) (l : list string),
            bool_decide (x ∈ l) = false → x ∉ l) as Hnotin
    by (intros x l; apply bool_decide_eq_false_1).
  unfold export_vector_types.call. destruct has_key; simpl.
  - split; [split; [done|intros _; by apply Hin]|].
    split; [by apply Hin|]. split; [by apply Hin|]. by apply Hnodup.
  - split; [split; [|done]|].
    + intros Hget. exfalso. revert Hget. by apply Hnotin.
    + split; [by apply Hin|]. split; [by apply Hin|]. by apply Hnodup.
Qed.

(** ** [LibInfo] *)

Lemma no_dot_pretty_N_go (x : N) (s : string) :
  no_dot s = true → no_dot (pretty_N_go x s) = true.
Proof.
  revert s. induction (N.lt_wf_0 x) as [x _ IH]; intros s Hs.
  assert (x = 0 ∨ 0 < x)%N as [->|Hpos] by lia.
  - by rewrite pretty_N_go_0.
  - rewrite pretty_N_go_step by done. apply IH.
    { by apply N.div_lt. }
    simpl. rewrite Hs, andb_true_r. unfold pretty_N_char.
    by repeat case_match.
Qed.

(** A number in decimal has no dot. *)
Lemma no_dot_pretty (x : N) : no_dot (pretty x) = true.
Proof.
  unfold pretty, pretty_N. case_decide; [done|].
  by apply no_dot_pretty_N_go.
Qed.

(** Two strings that agree and both start with a part without a dot,
    followed by a dot, agree part by part. *)
Lemma dot_separated_inj (d1 d2 r1 r2 : string) :
  no_dot d1 = true → no_dot d2 = true →
  d1 +:+ "." +:+ r1 = d2 +:+ "." +:+ r2 → d1 = d2 ∧ r1 = r2.
Proof.
  revert d2. induction d1 as [|c1 d1 IH]; intros [|c2 d2]; simpl;
    intros H1 H2 Heq.
  - by inversion Heq.
  - inversion Heq; subst. by rewrite Ascii.eqb_refl in H2.
  - inversion Heq; subst. by rewrite Ascii.eqb_refl in H1.
  - inversion Heq; subst. apply andb_true_iff in H1 as [_ H1].
    apply andb_true_iff in H2 as [_ H2].
    destruct (IH d2 H1 H2) as [-> ->]; done.
Qed.

(** X21: [GetGCCVersion] tells compiler versions apart: two versions give the
    same string only when their three numbers agree. *)
Theorem GetGCCVersion_inj (a b c a' b' c' : N) :
  LibInfo.GetGCCVersion a b c = LibInfo.GetGCCVersion a' b' c'
  ↔ a = a' ∧ b = b' ∧ c = c'.
Proof.
  split; [|by intros (-> & -> & ->)].
  unfold LibInfo.GetGCCVersion. intros Heq.
  apply dot_separated_inj in Heq as [Ha Heq]; [|apply no_dot_pretty..].
  apply dot_separated_inj in Heq as [Hb Hc]; [|apply no_dot_pretty..].
  by apply (inj pretty) in Ha, Hb, Hc.
Qed.

Example GetGCCVersion_4_6_3 :
  LibInfo.GetGCCVersion 4 6 3 = "4.6.3"
  ∧ LibInfo.GetGCCVersion 10 2 0 = "10.2.0".
Proof. by vm_compute. Qed.
